(** * terminal_bench_wrapper.py: the orchestration layer of TypeScriptAgentWrapper

    A shallow embedding of [src/terminal_bench_wrapper.py] and the properties
    its specification states about it.

    The wrapper talks to the outside world (the process environment, the
    container runtime, the agent executable, the file system, git).  The
    embedding makes that world an explicit, read-only record of answers, one
    per call site of the source, and runs the code in a small monad that
    collects the observable events (processes spawned, directories made,
    files written, lines printed) and either returns a value or raises a
    Python exception.

    Conventions:
    - text is [string]; every character stands for the code point with the
      same number (below 256);
    - every exception derives from [Exception]; signals that arrive from
      outside the call ([KeyboardInterrupt], [SystemExit]) are not part of
      the embedding;
    - [print] does not fail, and a child process started without a timeout
      ends;
    - an event records the attempt: a spawn that fails to start and a write
      that fails are in the trace all the same. *)

From stdpp Require Import base option list strings gmap pretty.
From Stdlib Require Import Ascii QArith.

Local Open Scope string_scope.
Local Open Scope Z_scope.
Local Open Scope list_scope.

(** ** Python's text primitives used by the wrapper *)

Module Text.

Definition code (c : ascii) : N := N_of_ascii c.

(** [str.isspace] on one character: TAB..CR, FS..US, space, NEL, NBSP. *)
Definition isspace (c : ascii) : bool :=
  let n := code c in
  ((9 <=? n) && (n <=? 13) || (28 <=? n) && (n <=? 32)
   || (n =? 133) || (n =? 160))%N.

(** The line boundaries of [str.splitlines]: LF, VT, FF, CR, FS, GS, RS,
    NEL (CR LF counts once, see [splitlines_go]). *)
Definition islinebreak (c : ascii) : bool :=
  let n := code c in
  ((10 <=? n) && (n <=? 13) || (28 <=? n) && (n <=? 30) || (n =? 133))%N.

Definition is_cr (c : ascii) : bool := (code c =? 13)%N.
Definition is_lf (c : ascii) : bool := (code c =? 10)%N.

Definition is_empty (s : string) : bool :=
  match s with EmptyString => true | String _ _ => false end.

Fixpoint lstrip (s : string) : string :=
  match s with
  | EmptyString => EmptyString
  | String c s' => if isspace c then lstrip s' else s
  end.

Fixpoint rstrip (s : string) : string :=
  match s with
  | EmptyString => EmptyString
  | String c s' =>
      match rstrip s' with
      | EmptyString => if isspace c then EmptyString else String c EmptyString
      | r => String c r
      end
  end.

(** [s.strip()] *)
Definition strip (s : string) : string := rstrip (lstrip s).

(** What a finished run of characters contributes: nothing when empty. *)
Definition flush (cur : string) : list string :=
  if is_empty cur then [] else [cur].

Fixpoint split_go (cur : string) (s : string) : list string :=
  match s with
  | EmptyString => flush cur
  | String c s' =>
      if isspace c then flush cur ++ split_go EmptyString s'
      else split_go (cur +:+ String c EmptyString) s'
  end.

(** [s.split()]: the maximal runs of non-whitespace characters. *)
Definition split (s : string) : list string := split_go EmptyString s.

Fixpoint splitlines_go (cur : string) (s : string) : list string :=
  match s with
  | EmptyString => flush cur
  | String c s' =>
      if islinebreak c then
        match s' with
        | String c' s'' =>
            if is_cr c && is_lf c' then cur :: splitlines_go EmptyString s''
            else cur :: splitlines_go EmptyString s'
        | EmptyString => cur :: splitlines_go EmptyString s'
        end
      else splitlines_go (cur +:+ String c EmptyString) s'
  end.

(** [s.splitlines()]: lines without their terminators; no empty last line. *)
Definition splitlines (s : string) : list string := splitlines_go EmptyString s.

(** [s.endswith(suffix)] *)
Fixpoint endswith (s suffix : string) : bool :=
  String.eqb s suffix
  || match s with
     | EmptyString => false
     | String _ s' => endswith s' suffix
     end.

(** [needle in hay] for two strings *)
Fixpoint contains (needle hay : string) : bool :=
  String.prefix needle hay
  || match hay with
     | EmptyString => false
     | String _ hay' => contains needle hay'
     end.

(** [a or b] on strings: the first operand unless it is empty. *)
Definition str_or (a b : string) : string := if is_empty a then b else a.

Fixpoint join (sep : string) (l : list string) : string :=
  match l with
  | [] => EmptyString
  | [x] => x
  | x :: rest => x +:+ sep +:+ join sep rest
  end.

End Text.

(** ** Exceptions, results and the effect monad *)

(** The exception classes the wrapper tells apart.  All of them derive from
    [Exception]; [OtherError] stands for every further subclass ([OSError],
    [ValueError], [UnicodeDecodeError], ...), named by [cls]. *)
Inductive exn : Type :=
| TimeoutExpired (cmd : list string) (timeout : Z)
| CalledProcessError (returncode : Z) (cmd : list string)
| RuntimeError (msg : string)
| IndexError (msg : string)
| OtherError (cls msg : string).

(** What the operating system or the codec can make a library call raise: the
    class ([FileNotFoundError], [PermissionError], [UnicodeDecodeError], ...)
    and the message of the exception.  The call sites below turn it into an
    [OtherError]. *)
Record failure : Type := mkFailure {
  failure_cls : string;
  failure_msg : string
}.

Definition exn_of (f : failure) : exn := OtherError (failure_cls f) (failure_msg f).

Definition is_TimeoutExpired (e : exn) : bool :=
  match e with TimeoutExpired _ _ => true | _ => false end.

(** [repr(cmd)], for arguments that need no escaping *)
Definition repr_cmd (cmd : list string) : string :=
  "[" +:+ Text.join ", " (map (fun a => "'" +:+ a +:+ "'") cmd) +:+ "]".

(** [str(e)] ([CalledProcessError]: for a child that was not killed by a
    signal) *)
Definition str_exn (e : exn) : string :=
  match e with
  | TimeoutExpired cmd t =>
      "Command '" +:+ repr_cmd cmd +:+ "' timed out after " +:+ pretty t +:+ " seconds"
  | CalledProcessError rc cmd =>
      "Command '" +:+ repr_cmd cmd +:+ "' returned non-zero exit status " +:+ pretty rc +:+ "."
  | RuntimeError msg => msg
  | IndexError msg => msg
  | OtherError _ msg => msg
  end.

Inductive proc_kind : Type := DockerPs | Agent | Git.

(** What a call of the wrapper leaves behind in the world. *)
Inductive event : Type :=
| EvSpawn (who : proc_kind) (cmd : list string) (cwd : option string)
          (env : option (gmap string string))
| EvMkdir (path : string)
| EvWrite (path : string) (content : string)
| EvPrint (line : string).

Inductive outcome (A : Type) : Type :=
| Return (a : A)
| Raise (e : exn).
Arguments Return {A} a.
Arguments Raise {A} e.

(** A computation: how it ends and the events it produced, oldest first. *)
Definition M (A : Type) : Type := outcome A * list event.

Definition result {A} (m : M A) : outcome A := fst m.
Definition trace {A} (m : M A) : list event := snd m.

Definition ret {A} (a : A) : M A := (Return a, []).
Definition raise {A} (e : exn) : M A := (Raise e, []).
Definition emit (ev : event) : M unit := (Return tt, [ev]).

(** Sequencing: [k] runs only when [m] returns; the events add up. *)
Definition bind {A B} (m : M A) (k : A -> M B) : M B :=
  match result m with
  | Return a => (result (k a), trace m ++ trace (k a))
  | Raise e => (Raise e, trace m)
  end.

(** [try: m  except Exception as e: h e] *)
Definition try_except {A} (m : M A) (h : exn -> M A) : M A :=
  match result m with
  | Return a => (Return a, trace m)
  | Raise e => (result (h e), trace m ++ trace (h e))
  end.

(** The monad structure, for stdpp's [x ← m; k] and [m;; k]. *)
#[global] Instance M_ret : MRet M := @ret.
#[global] Instance M_bind : MBind M := fun A B k m => bind m k.

Definition print (line : string) : M unit := emit (EvPrint line).

Definition lift {A} (o : outcome A) : M A := (o, []).

(** ** Collaborators: processes and the file system *)

(** [subprocess.CompletedProcess], with [text=True] and [capture_output=True] *)
Record CompletedProcess : Type := mkCompleted {
  returncode : Z;
  stdout : string;
  stderr : string
}.

(** How a child process behaves once [subprocess.run] is asked to start it:
    [Fails f] when starting it (or decoding its output) fails with [f];
    otherwise it exits after [elapsed] seconds with the given status and
    output. *)
Inductive proc_behaviour : Type :=
| Exits (elapsed : Q) (cp : CompletedProcess)
| Fails (f : failure).

(** The timeout (in seconds) that passes while the child is still running. *)
Definition overrun (timeout : option Z) (elapsed : Q) : option Z :=
  match timeout with
  | None => None
  | Some t => if Qle_bool elapsed (inject_Z t) then None else Some t
  end.

(** [subprocess.run(cmd, cwd=.., env=.., capture_output=True, text=True,
    timeout=.., check=..)] against a child that behaves as [beh] *)
Definition subprocess_run (who : proc_kind) (beh : proc_behaviour)
    (cmd : list string) (cwd : option string) (env : option (gmap string string))
    (timeout : option Z) (check : bool) : M CompletedProcess :=
  emit (EvSpawn who cmd cwd env);;
  match beh with
  | Fails f => raise (exn_of f)
  | Exits elapsed cp =>
      match overrun timeout elapsed with
      | Some t => raise (TimeoutExpired cmd t)
      | None =>
          if check && negb (returncode cp =? 0)
          then raise (CalledProcessError (returncode cp) cmd)
          else mret cp
      end
  end.

(** A file-system operation: it is attempted (the event) and raises when the
    world answers with a failure. *)
Definition fs_op (ev : event) (answer : option failure) : M unit :=
  emit ev;;
  match answer with
  | Some f => raise (exn_of f)
  | None => mret tt
  end.

(** [dir / name] on [pathlib.Path] *)
Definition path_join (dir name : string) : string := dir +:+ "/" +:+ name.

(** The world as the snapshot step meets it. *)
Record SnapshotWorld : Type := mkSnapshotWorld {
  snap_mkdir : option failure;             (* run_dir.mkdir(parents=True, exist_ok=True) *)
  git : list string -> proc_behaviour;   (* git <args>, in agent_dir *)
  snap_write : string -> option failure     (* (run_dir / name).write_text(..) *)
}.

(** The world as one call of [perform_task] meets it. *)
Record World : Type := mkWorld {
  os_environ : gmap string string;       (* os.environ *)
  docker_ps : proc_behaviour;            (* docker ps --format ... *)
  agent : proc_behaviour;                (* node dist/index.js run ... *)
  log_mkdir : option failure;             (* logging_dir.mkdir(parents=True, exist_ok=True) *)
  log_write : string -> option failure;     (* open(logging_dir / name, "w") ... f.write(..) *)
  snapshot : SnapshotWorld
}.

Definition with_snapshot (w : World) (sw : SnapshotWorld) : World :=
  {| os_environ := os_environ w; docker_ps := docker_ps w; agent := agent w;
     log_mkdir := log_mkdir w; log_write := log_write w; snapshot := sw |}.

(** ** terminal_bench's result types *)

(** Modelled from the spec: [terminal_bench.agents.failure_mode.FailureMode]
    is imported, not defined, by the wrapper; these are the three members it
    uses (the spec's None, Timeout and UnknownError). *)
Inductive FailureMode : Type := NONE | AGENT_TIMEOUT | UNKNOWN_AGENT_ERROR.

(** Modelled from the spec: [terminal_bench.agents.base_agent.AgentResult],
    with the three fields the wrapper sets. *)
Record AgentResult : Type := mkAgentResult {
  failure_mode : FailureMode;
  total_input_tokens : Z;
  total_output_tokens : Z
}.

(** The harness session: what [type(session)] prints as, and whether
    [hasattr(session, 'send_keys')]. *)
Record Session : Type := mkSession {
  session_type : string;
  has_send_keys : bool
}.

(** The attributes [__init__] leaves on the wrapper object. *)
Record Wrapper : Type := mkWrapper {
  agent_dir : string;
  node_executable : string;
  agent_script : string
}.

Definition str_bool (b : bool) : string := if b then "True" else "False".

(** ** TypeScriptAgentWrapper *)

(** [key in env] *)
Definition has_key (key : string) (env : gmap string string) : bool :=
  bool_decide (is_Some (env !! key)).

Definition _setup_environment (environ : gmap string string)
  : outcome (gmap string string) :=
  let env := environ in
  if negb (has_key "OPENROUTER_API_KEY" env) && negb (has_key "OPENAI_API_KEY" env)
  then Raise (RuntimeError
    "No API key found. Please set OPENROUTER_API_KEY or OPENAI_API_KEY environment variable.")
  else
    let env :=
      if negb (has_key "LITELLM_MODEL" env) then
        if has_key "OPENROUTER_API_KEY" env
        then <["LITELLM_MODEL" := "anthropic/claude-3.5-sonnet"]> env
        else <["LITELLM_MODEL" := "gpt-4"]> env
      else env in
    let env :=
      if negb (has_key "LITELLM_TEMPERATURE" env)
      then <["LITELLM_TEMPERATURE" := "0.1"]> env
      else env in
    Return env.

Definition _run_git (self : Wrapper) (sw : SnapshotWorld) (args : list string)
  : M CompletedProcess :=
  subprocess_run Git (git sw args) ("git" :: args) (Some (agent_dir self)) None None false.

Definition write_text (sw : SnapshotWorld) (run_dir name content : string) : M unit :=
  fs_op (EvWrite (path_join run_dir name) content) (snap_write sw name).

Definition _capture_git_metadata (self : Wrapper) (sw : SnapshotWorld)
    (logging_dir : option string) : M unit :=
  match logging_dir with
  | None => mret tt
  | Some run_dir =>
      fs_op (EvMkdir run_dir) (snap_mkdir sw);;
      status ← _run_git self sw ["status"; "--porcelain=v1"; "--branch"];
      diff_ws ← _run_git self sw ["diff"];
      diff_staged ← _run_git self sw ["diff"; "--cached"];
      head ← _run_git self sw ["show"; "--no-patch"; "--pretty=fuller"; "HEAD"];
      write_text sw run_dir "git-status.txt"
        (Text.str_or (stdout status) (Text.str_or (stderr status) ""));;
      write_text sw run_dir "git-diff.patch"
        (Text.str_or (stdout diff_ws) (Text.str_or (stderr diff_ws) ""));;
      write_text sw run_dir "git-diff-staged.patch"
        (Text.str_or (stdout diff_staged) (Text.str_or (stderr diff_staged) ""));;
      write_text sw run_dir "git-head.txt"
        (Text.str_or (stdout head) (Text.str_or (stderr head) ""))
  end.

(** [try: self._capture_git_metadata(logging_dir)
     except Exception as e: print(f"Warning: ...: {e}")] *)
Definition capture_git_metadata_guarded (self : Wrapper) (sw : SnapshotWorld)
    (logging_dir : option string) : M unit :=
  try_except (_capture_git_metadata self sw logging_dir)
    (fun e => print ("Warning: failed to capture git metadata: " +:+ str_exn e)).

(** The container heuristic on one [docker ps] entry. *)
Definition tb_match (image name : string) : bool :=
  Text.contains "terminal-bench" image
  || Text.endswith name "_agent_1"
  || Text.endswith name "_app_1".

(** One turn of the [for line in lines] loop of [_find_tb_container_id]:
    [Some name] when it returns from inside the loop, [None] when it goes on
    to the next line. *)
Definition match_line (line : string) : option string :=
  let parts := Text.split line in
  if (length parts <? 3)%nat then None
  else
    match parts with
    | cid :: image :: name :: _ => if tb_match image name then Some name else None
    | _ => None
    end.

Fixpoint scan_lines (lines : list string) : option string :=
  match lines with
  | [] => None
  | line :: rest =>
      match match_line line with
      | Some name => Some name
      | None => scan_lines rest
      end
  end.

Definition docker_ps_cmd : list string :=
  ["docker"; "ps"; "--format"; "{{.ID}} {{.Image}} {{.Names}}"].

(** [subprocess.run(['docker', 'ps', ...], capture_output=True, text=True,
    check=True)] *)
Definition listing (w : World) : M CompletedProcess :=
  subprocess_run DockerPs (docker_ps w) docker_ps_cmd None None None true.

Definition _find_tb_container_id (w : World) : M (option string) :=
  try_except
    (proc ← listing w;
     let lines := Text.splitlines (Text.strip (stdout proc)) in
     match scan_lines lines with
     | Some name => mret (Some name)
     | None =>
         match lines with
         | first :: _ =>
             match Text.split first with
             | cid :: _ => mret (Some cid)
             | [] => raise (IndexError "list index out of range")
             end
         | [] => mret None
         end
     end)
    (fun _ => mret None).

(** [not container_id] on an [Optional[str]] *)
Definition falsy (container_id : option string) : bool :=
  match container_id with
  | None => true
  | Some s => Text.is_empty s
  end.

Definition unknown_agent_error : AgentResult :=
  {| failure_mode := UNKNOWN_AGENT_ERROR; total_input_tokens := 0; total_output_tokens := 0 |}.

Definition when_nonempty (s : string) (m : M unit) : M unit :=
  if Text.is_empty s then mret tt else m.

Definition _run_with_terminal_bench_session (self : Wrapper) (w : World)
    (instruction : string) (session : Session) (env : gmap string string)
    (logging_dir : option string) : M AgentResult :=
  try_except
    (print "Running TypeScript agent with Terminal-Bench session integration";;
     container_id ← _find_tb_container_id w;
     if falsy container_id then
       print "Error: Could not locate Terminal-Bench container to target with DockerExecutor";;
       mret unknown_agent_error
     else
       let container_id := default "" container_id in
       print ("Discovered Terminal-Bench container: " +:+ container_id);;
       let cmd := [node_executable self; agent_script self; "run"; "--container";
                   container_id; instruction] in
       print ("Executing TS agent on host targeting container " +:+ container_id);;
       result ← subprocess_run Agent (agent w) cmd (Some (agent_dir self))
                  (Some (<["TERMINAL_BENCH_SESSION" := "true"]> env)) (Some 3600) false;
       when_nonempty (stdout result) (print (stdout result));;
       when_nonempty (stderr result) (print (stderr result));;
       let success := returncode result =? 0 in
       capture_git_metadata_guarded self (snapshot w) logging_dir;;
       mret {| failure_mode := if success then NONE else UNKNOWN_AGENT_ERROR;
               total_input_tokens := 0; total_output_tokens := 0 |})
    (fun e =>
       print ("Error in Terminal-Bench session execution: " +:+ str_exn e);;
       mret unknown_agent_error).

(** [open(logging_dir / name, "w")] and [f.write(content)] *)
Definition write_log (w : World) (logging_dir name content : string) : M unit :=
  fs_op (EvWrite (path_join logging_dir name) content) (log_write w name).

(** The [if logging_dir:] block of [_run_direct_execution] *)
Definition persist_logs (w : World) (logging_dir : option string)
    (result : CompletedProcess) : M unit :=
  match logging_dir with
  | Some dir =>
      fs_op (EvMkdir dir) (log_mkdir w);;
      write_log w dir "typescript_agent_stdout.log" (stdout result);;
      write_log w dir "typescript_agent_stderr.log" (stderr result)
  | None => mret tt
  end.

Definition _run_direct_execution (self : Wrapper) (w : World)
    (instruction : string) (env : gmap string string)
    (logging_dir : option string) : M AgentResult :=
  try_except
    (let cmd := [node_executable self; agent_script self; "run"; instruction] in
     let working_dir := agent_dir self in
     print ("Running TypeScript agent with task: " +:+ instruction);;
     print ("Working directory: " +:+ working_dir);;
     print ("Model: " +:+ default "default" (env !! "LITELLM_MODEL"));;
     result ← subprocess_run Agent (agent w) cmd (Some working_dir) (Some env)
                (Some 3600) false;
     persist_logs w logging_dir result;;
     let success := returncode result =? 0 in
     capture_git_metadata_guarded self (snapshot w) logging_dir;;
     let failure_mode := if success then NONE else UNKNOWN_AGENT_ERROR in
     print ("Task result: " +:+ (if success then "SUCCESS" else "FAILURE"));;
     print ("Return code: " +:+ pretty (returncode result));;
     when_nonempty (stdout result) (print ("Output: " +:+ Text.strip (stdout result)));;
     when_nonempty (stderr result) (print ("Error: " +:+ Text.strip (stderr result)));;
     mret {| failure_mode := failure_mode;
             total_input_tokens := 0; total_output_tokens := 0 |})
    (fun e => if is_TimeoutExpired e then raise e else raise e).

Definition perform_task (self : Wrapper) (w : World) (instruction : string)
    (session : Session) (logging_dir : option string) : M AgentResult :=
  try_except
    (env ← lift (_setup_environment (os_environ w));
     print ("Session type: " +:+ session_type session);;
     print ("Session has send_keys: " +:+ str_bool (has_send_keys session));;
     if has_send_keys session
     then _run_with_terminal_bench_session self w instruction session env logging_dir
     else _run_direct_execution self w instruction env logging_dir)
    (fun e =>
       if is_TimeoutExpired e then
         let error_msg := "Task timed out after 1 hour" in
         print ("Error: " +:+ error_msg);;
         mret {| failure_mode := AGENT_TIMEOUT;
                 total_input_tokens := 0; total_output_tokens := 0 |}
       else
         let error_msg := "Unexpected error: " +:+ str_exn e in
         print ("Error: " +:+ error_msg);;
         mret unknown_agent_error).

(** ** Vocabulary of the statements *)

Definition spawns (who : proc_kind) (ev : event) : bool :=
  match ev, who with
  | EvSpawn DockerPs _ _ _, DockerPs => true
  | EvSpawn Agent _ _ _, Agent => true
  | EvSpawn Git _ _ _, Git => true
  | _, _ => false
  end.

(** An event that starts neither the agent nor the container listing; the
    events of the snapshot step (git runs, the directory, the four files, the
    warning line) are all of this kind. *)
Definition snapshot_event (ev : event) : Prop :=
  spawns Agent ev = false /\ spawns DockerPs ev = false.

(** The agent process was started during the call that left trace [t]. *)
Definition agent_spawned (t : list event) : Prop :=
  Exists (fun ev => spawns Agent ev = true) t.

(** Container discovery was attempted during the call that left trace [t]. *)
Definition discovery_attempted (t : list event) : Prop :=
  Exists (fun ev => spawns DockerPs ev = true) t.

(** The result the wrapper builds from a completed agent process. *)
Definition classify (cp : CompletedProcess) : AgentResult :=
  {| failure_mode := if returncode cp =? 0 then NONE else UNKNOWN_AGENT_ERROR;
     total_input_tokens := 0; total_output_tokens := 0 |}.

Definition timeout_result : AgentResult :=
  {| failure_mode := AGENT_TIMEOUT; total_input_tokens := 0; total_output_tokens := 0 |}.

(** The line the handlers of [perform_task] print for exception [e]. *)
Definition error_line (e : exn) : string :=
  if is_TimeoutExpired e then "Error: Task timed out after 1 hour"
  else "Error: Unexpected error: " +:+ str_exn e.

(** The command line of the session-integrated path. *)
Definition session_cmd (self : Wrapper) (container_id instruction : string) : list string :=
  [node_executable self; agent_script self; "run"; "--container"; container_id; instruction].

(** ** Sample inputs *)

Module Sample.

Definition newline : string := String (ascii_of_nat 10) EmptyString.

Definition wrapper : Wrapper :=
  {| agent_dir := "/opt/agent"; node_executable := "/usr/bin/node";
     agent_script := "/opt/agent/dist/index.js" |}.

Definition tmux_session : Session :=
  {| session_type := "<class 'terminal_bench.terminal.tmux_session.TmuxSession'>";
     has_send_keys := true |}.

Definition plain_session : Session :=
  {| session_type := "<class '__main__.MockSession'>"; has_send_keys := false |}.

Definition finished (rc : Z) (out : string) : proc_behaviour :=
  Exits 1 {| returncode := rc; stdout := out; stderr := "" |}.

(** git answers at once with no output, and the files can be written. *)
Definition working_snapshot : SnapshotWorld :=
  {| snap_mkdir := None; git := fun _ => finished 0 ""; snap_write := fun _ => None |}.

(** git is not installed. *)
Definition broken_snapshot : SnapshotWorld :=
  {| snap_mkdir := None;
     git := fun _ => Fails (mkFailure "FileNotFoundError"
                              "[Errno 2] No such file or directory: 'git'");
     snap_write := fun _ => None |}.

Definition one_container : proc_behaviour :=
  finished 0 ("abc123 ubuntu task_agent_1" +:+ newline).

Definition credentials : gmap string string := {["OPENAI_API_KEY" := "sk-test"]}.

(** One container is running and the agent exits with status 0. *)
Definition world_ok : World :=
  {| os_environ := credentials; docker_ps := one_container; agent := finished 0 "done";
     log_mkdir := None; log_write := fun _ => None; snapshot := working_snapshot |}.

(** As [world_ok], but the agent is still running after 4000 seconds. *)
Definition world_slow_agent : World :=
  {| os_environ := credentials; docker_ps := one_container;
     agent := Exits 4000 {| returncode := 0; stdout := ""; stderr := "" |};
     log_mkdir := None; log_write := fun _ => None; snapshot := working_snapshot |}.

(** As [world_ok], but the logging directory cannot be created. *)
Definition world_unwritable_logs : World :=
  {| os_environ := credentials; docker_ps := one_container; agent := finished 0 "done";
     log_mkdir := Some (mkFailure "PermissionError"
                          "[Errno 13] Permission denied: '/runs'");
     log_write := fun _ => None; snapshot := working_snapshot |}.

(** As [world_ok], but no container is running. *)
Definition world_no_containers : World :=
  {| os_environ := credentials; docker_ps := finished 0 ""; agent := finished 0 "done";
     log_mkdir := None; log_write := fun _ => None; snapshot := working_snapshot |}.

(** As [world_ok], but neither credential is set. *)
Definition world_no_credentials : World :=
  {| os_environ := {["HOME" := "/root"]}; docker_ps := one_container;
     agent := finished 0 "done";
     log_mkdir := None; log_write := fun _ => None; snapshot := working_snapshot |}.

End Sample.

(** ** Construction of the wrapper *)

Module Init.

(** What constructing a [TypeScriptAgentWrapper] leaves behind in the world. *)
Inductive action : Type :=
| IvSpawn (cmd : list string) (cwd : option string)
| IvLoadDotenv (path : string)
| IvPrint (line : string).

(** The world as the constructor meets it. *)
Record World : Type := mkWorld {
  module_dir : string;                  (* Path(__file__).parent *)
  which_node : proc_behaviour;          (* which node *)
  path_exists : string -> bool;         (* os.path.exists(p), Path.exists() *)
  dotenv : option failure;              (* load_dotenv(env_file) *)
  npm_build : proc_behaviour;           (* npm run build, output as bytes *)
  decode : string -> string + failure   (* bytes.decode() *)
}.

(** A computation of the constructor: how it ends and what it did. *)
Definition I (A : Type) : Type := outcome A * list action.

Definition ret {A} (a : A) : I A := (Return a, []).
Definition raise {A} (e : exn) : I A := (Raise e, []).
Definition emit (ev : action) : I unit := (Return tt, [ev]).

Definition bind {A B} (m : I A) (k : A -> I B) : I B :=
  match fst m with
  | Return a => (fst (k a), snd m ++ snd (k a))
  | Raise e => (Raise e, snd m)
  end.

(** [try: m  except subprocess.CalledProcessError as e: h e]: any other
    exception goes on to the caller. *)
Definition try_except_called_process_error {A} (m : I A) (h : exn -> I A) : I A :=
  match fst m with
  | Return a => (Return a, snd m)
  | Raise (CalledProcessError rc cmd) =>
      (fst (h (CalledProcessError rc cmd)), snd m ++ snd (h (CalledProcessError rc cmd)))
  | Raise e => (Raise e, snd m)
  end.

#[local] Instance I_ret : MRet I := @ret.
#[local] Instance I_bind : MBind I := fun A B k m => bind m k.

Definition print (line : string) : I unit := emit (IvPrint line).

(** [subprocess.run(cmd, cwd=.., capture_output=True, check=..)], without a
    timeout *)
Definition run (beh : proc_behaviour) (cmd : list string) (cwd : option string)
    (check : bool) : I CompletedProcess :=
  emit (IvSpawn cmd cwd);;
  match beh with
  | Fails f => raise (exn_of f)
  | Exits _ cp =>
      if check && negb (returncode cp =? 0)
      then raise (CalledProcessError (returncode cp) cmd)
      else mret cp
  end.

Definition common_paths : list string :=
  ["/usr/bin/node"; "/usr/local/bin/node"; "/opt/homebrew/bin/node"].

(** The [for path in common_paths] loop of [_find_node]: the path it returns,
    if any. *)
Fixpoint first_existing (present : string -> bool) (paths : list string)
  : option string :=
  match paths with
  | [] => None
  | path :: rest => if present path then Some path else first_existing present rest
  end.

Definition _find_node (iw : World) : I string :=
  try_except_called_process_error
    (result ← run (which_node iw) ["which"; "node"] None true;
     mret (Text.strip (stdout result)))
    (fun _ =>
       match first_existing (path_exists iw) common_paths with
       | Some path => mret path
       | None =>
           raise (RuntimeError
             "Node.js not found. Please install Node.js or ensure it's in your PATH.")
       end).

(** The handler reads [e.stderr], the error output of the build that exited
    with a nonzero status, and decodes it. *)
Definition _build_agent (iw : World) (agent_dir : string) : I unit :=
  print "Building TypeScript agent...";;
  try_except_called_process_error
    (run (npm_build iw) ["npm"; "run"; "build"] (Some agent_dir) true;;
     print "TypeScript agent built successfully.")
    (fun e =>
       match npm_build iw with
       | Exits _ cp =>
           match decode iw (stderr cp) with
           | inl text => raise (RuntimeError ("Failed to build TypeScript agent: " +:+ text))
           | inr f => raise (exn_of f)
           end
       | Fails _ => raise e
       end).

(** [load_dotenv(env_file)] *)
Definition load_dotenv (iw : World) (env_file : string) : I unit :=
  emit (IvLoadDotenv env_file);;
  match dotenv iw with
  | Some f => raise (exn_of f)
  | None => mret tt
  end.

(** [TypeScriptAgentWrapper.__init__]; [kwargs] maps each keyword to the
    truth value of its argument. *)
Definition __init__ (iw : World) (kwargs : gmap string bool) : I Wrapper :=
  let agent_dir := module_dir iw in
  node_executable ← _find_node iw;
  let agent_script := path_join (path_join agent_dir "dist") "index.js" in
  let env_file := path_join agent_dir ".env" in
  (if path_exists iw env_file then load_dotenv iw env_file else mret tt);;
  let should_build := negb (default false (kwargs !! "no_rebuild")) in
  (if should_build && negb (path_exists iw agent_script)
   then _build_agent iw agent_dir else mret tt);;
  mret {| agent_dir := agent_dir; node_executable := node_executable;
          agent_script := agent_script |}.

(** [TypeScriptAgentWrapper.name()] *)
Definition name : string := "typescript-multi-agent".

End Init.

(** ** The standalone entry point *)

Module Main.

(** What [python terminal_bench_wrapper.py ...] does: steps of the
    constructor, steps of [perform_task], and its own printed lines. *)
Inductive step : Type :=
| MvInit (ev : Init.action)
| MvRun (ev : event)
| MvPrint (line : string).

Definition P (A : Type) : Type := outcome A * list step.

Definition ret {A} (a : A) : P A := (Return a, []).

Definition bind {A B} (m : P A) (k : A -> P B) : P B :=
  match fst m with
  | Return a => (fst (k a), snd m ++ snd (k a))
  | Raise e => (Raise e, snd m)
  end.

#[local] Instance P_ret : MRet P := @ret.
#[local] Instance P_bind : MBind P := fun A B k m => bind m k.

Definition print (line : string) : P unit := (Return tt, [MvPrint line]).
Definition of_init {A} (m : Init.I A) : P A := (fst m, MvInit <$> snd m).
Definition of_run {A} (m : M A) : P A := (fst m, MvRun <$> snd m).

(** [class MockSession] of the entry point: it has [get_cwd] only. *)
Definition MockSession : Session :=
  {| session_type := "<class '__main__.MockSession'>"; has_send_keys := false |}.

Definition usage : string :=
  "Usage: python terminal_bench_wrapper.py '<task_description>'".

(** The body under [if __name__ == "__main__":].  It returns the status
    handed to [sys.exit]; [str_failure_mode] is [str] on terminal_bench's
    [FailureMode]. *)
Definition main (str_failure_mode : FailureMode -> string) (argv : list string)
    (iw : Init.World) (w : World) : P Z :=
  if negb (length argv =? 2)%nat then
    print usage;;
    mret 1
  else
    let task := default "" (argv !! 1%nat) in
    wrapper ← of_init (Init.__init__ iw ∅);
    result ← of_run (perform_task wrapper w task MockSession None);
    print (String (ascii_of_nat 10) "Final Result:");;
    print ("Failure Mode: " +:+ str_failure_mode (failure_mode result));;
    print ("Success: " +:+ str_bool (match failure_mode result with
                                      | NONE => true
                                      | _ => false
                                      end));;
    mret (match failure_mode result with NONE => 0 | _ => 1 end).

(** The exit status of the interpreter: that of [sys.exit], or 1 after an
    exception nobody caught. *)
Definition exit_status (m : P Z) : Z :=
  match fst m with
  | Return status => status
  | Raise _ => 1
  end.

End Main.

(** ** Vocabulary of the further statements *)

(** Every character of [s] passes [p]. *)
Fixpoint all_chars (p : ascii -> bool) (s : string) : bool :=
  match s with
  | EmptyString => true
  | String c s' => p c && all_chars p s'
  end.

(** A field of a [docker ps] entry: not empty and free of whitespace. *)
Definition is_field (s : string) : bool :=
  negb (Text.is_empty s) && all_chars (fun c => negb (Text.isspace c)) s.

(** One line of [docker ps --format '{{.ID}} {{.Image}} {{.Names}}']. *)
Definition entry (cid image name : string) : string :=
  cid +:+ " " +:+ image +:+ " " +:+ name.

(** The four files of the snapshot and the git queries that fill them. *)
Definition snapshot_files : list string :=
  ["git-status.txt"; "git-diff.patch"; "git-diff-staged.patch"; "git-head.txt"].

Definition git_queries : list (list string) :=
  [["status"; "--porcelain=v1"; "--branch"]; ["diff"]; ["diff"; "--cached"];
   ["show"; "--no-patch"; "--pretty=fuller"; "HEAD"]].

(** The two log files of the direct path. *)
Definition log_files : list string :=
  ["typescript_agent_stdout.log"; "typescript_agent_stderr.log"].

(** The event leaves something on disk or runs git. *)
Definition persists (ev : event) : bool :=
  match ev with
  | EvMkdir _ | EvWrite _ _ | EvSpawn Git _ _ _ => true
  | _ => false
  end.

(** What one call of [perform_task] may do, event by event. *)
Definition permitted (self : Wrapper) (instruction : string) (session : Session)
    (logging_dir : option string) (ev : event) : Prop :=
  match ev with
  | EvPrint _ => True
  | EvSpawn DockerPs cmd cwd env =>
      has_send_keys session = true /\ cmd = docker_ps_cmd /\ cwd = None /\ env = None
  | EvSpawn Agent cmd cwd env =>
      cwd = Some (agent_dir self) /\ is_Some env
      /\ if has_send_keys session
         then exists container, cmd = session_cmd self container instruction
         else cmd = [node_executable self; agent_script self; "run"; instruction]
  | EvSpawn Git cmd cwd env =>
      is_Some logging_dir /\ cwd = Some (agent_dir self) /\ env = None
      /\ exists args, args ∈ git_queries /\ cmd = "git" :: args
  | EvMkdir path => logging_dir = Some path
  | EvWrite path _ =>
      exists dir name,
        logging_dir = Some dir /\ path = path_join dir name
        /\ (name ∈ snapshot_files \/ has_send_keys session = false /\ name ∈ log_files)
  end.

(** How many processes of kind [who] the trace [t] starts. *)
Definition spawn_count (who : proc_kind) (t : list event) : nat :=
  length (List.filter (spawns who) t).

(** ** Further sample inputs *)

Module Fixture.

(** One container is running and nothing about it matches the heuristic. *)
Definition world_unrelated_container : World :=
  {| os_environ := Sample.credentials;
     docker_ps := Sample.finished 0 ("abc123 ubuntu web" +:+ Sample.newline);
     agent := Sample.finished 0 "done";
     log_mkdir := None; log_write := fun _ => None;
     snapshot := Sample.working_snapshot |}.

(** As [Sample.world_ok], but node is not installed. *)
Definition world_no_node : World :=
  {| os_environ := Sample.credentials; docker_ps := Sample.one_container;
     agent := Fails (mkFailure "FileNotFoundError"
                       "[Errno 2] No such file or directory: '/usr/bin/node'");
     log_mkdir := None; log_write := fun _ => None;
     snapshot := Sample.working_snapshot |}.

(** [which] finds nothing, node is installed by Homebrew, the agent is built
    and there is no .env file. *)
Definition init_homebrew : Init.World :=
  {| Init.module_dir := "/opt/agent";
     Init.which_node := Sample.finished 1 "";
     Init.path_exists := fun p =>
       String.eqb p "/opt/homebrew/bin/node" || String.eqb p "/opt/agent/dist/index.js";
     Init.dotenv := None;
     Init.npm_build := Sample.finished 0 "";
     Init.decode := inl |}.

(** As [init_homebrew], but the agent is not built yet and the build
    fails. *)
Definition init_broken_build : Init.World :=
  {| Init.module_dir := "/opt/agent";
     Init.which_node := Sample.finished 1 "";
     Init.path_exists := fun p => String.eqb p "/opt/homebrew/bin/node";
     Init.dotenv := None;
     Init.npm_build :=
       Exits 9 {| returncode := 2; stdout := ""; stderr := "error TS2304" |};
     Init.decode := inl |}.

(** As [init_homebrew], but there is no [which] to run. *)
Definition init_no_which : Init.World :=
  {| Init.module_dir := "/opt/agent";
     Init.which_node :=
       Fails (mkFailure "FileNotFoundError"
                "[Errno 2] No such file or directory: 'which'");
     Init.path_exists := fun p =>
       String.eqb p "/opt/homebrew/bin/node" || String.eqb p "/opt/agent/dist/index.js";
     Init.dotenv := None;
     Init.npm_build := Sample.finished 0 "";
     Init.decode := inl |}.

End Fixture.

(** * Properties *)

(** ** Laws of the effect monad *)

Section MonadLaws.
Context {A B : Type}.
Implicit Types (m : M A) (k : A -> M B) (h : exn -> M A).

Lemma result_bind m k :
  result (m ≫= k)
  = match result m with Return a => result (k a) | Raise e => Raise e end.
Proof. unfold mbind, M_bind, bind. by destruct (result m). Qed.

Lemma trace_bind m k :
  trace (m ≫= k)
  = trace m ++ match result m with Return a => trace (k a) | Raise _ => [] end.
Proof.
  unfold mbind, M_bind, bind. destruct (result m); simpl; [done|].
  by rewrite app_nil_r.
Qed.

Lemma result_try_except m h :
  result (try_except m h)
  = match result m with Return a => Return a | Raise e => result (h e) end.
Proof. unfold try_except. by destruct (result m). Qed.

Lemma trace_try_except m h :
  trace (try_except m h)
  = trace m ++ match result m with Return _ => [] | Raise e => trace (h e) end.
Proof.
  unfold try_except. destruct (result m); simpl; [|done].
  by rewrite app_nil_r.
Qed.

(** A property of every event carries over sequencing and handlers. *)
Lemma Forall_trace_bind (P : event -> Prop) m k :
  Forall P (trace m) -> (forall a, Forall P (trace (k a))) ->
  Forall P (trace (m ≫= k)).
Proof.
  intros Hm Hk. rewrite trace_bind. apply Forall_app. split; [done|].
  destruct (result m); [apply Hk | constructor].
Qed.

Lemma Forall_trace_try_except (P : event -> Prop) m h :
  Forall P (trace m) -> (forall e, Forall P (trace (h e))) ->
  Forall P (trace (try_except m h)).
Proof.
  intros Hm Hh. rewrite trace_try_except. apply Forall_app. split; [done|].
  destruct (result m); [constructor | apply Hh].
Qed.
End MonadLaws.

(** ** Environment resolution *)

Lemma has_key_true key (env : gmap string string) :
  has_key key env = true <-> is_Some (env !! key).
Proof. unfold has_key. apply bool_decide_eq_true. Qed.

Lemma has_key_false key (env : gmap string string) :
  has_key key env = false <-> env !! key = None.
Proof.
  unfold has_key. rewrite bool_decide_eq_false. symmetry. apply eq_None_not_Some.
Qed.

Lemma has_key_insert_ne key key' v (env : gmap string string) :
  key' <> key -> has_key key (<[key' := v]> env) = has_key key env.
Proof. intros Hne. unfold has_key. by rewrite lookup_insert_ne. Qed.

(** Whatever the model default, the temperature default is filled in after
    it and leaves the model entry alone. *)
Lemma temperature_default_lookup (env : gmap string string) :
  let env' := if negb (has_key "LITELLM_TEMPERATURE" env)
              then <["LITELLM_TEMPERATURE" := "0.1"]> env else env in
  env' !! "LITELLM_MODEL" = env !! "LITELLM_MODEL"
  /\ (has_key "LITELLM_TEMPERATURE" env = false ->
      env' !! "LITELLM_TEMPERATURE" = Some "0.1").
Proof.
  simpl. destruct (has_key "LITELLM_TEMPERATURE" env) eqn:Ht; simpl.
  - split; [done | discriminate].
  - split; [by rewrite lookup_insert_ne | intros _; apply lookup_insert_eq].
Qed.

(** C8: with exactly one of the two credentials and no LITELLM_MODEL, the
    environment is resolved and its model is that credential's default
    (anthropic/claude-3.5-sonnet for OPENROUTER_API_KEY, gpt-4 for
    OPENAI_API_KEY); an unset LITELLM_TEMPERATURE becomes 0.1. *)
Theorem setup_environment_single_credential (environ : gmap string string) :
  has_key "LITELLM_MODEL" environ = false ->
  xorb (has_key "OPENROUTER_API_KEY" environ) (has_key "OPENAI_API_KEY" environ) = true ->
  exists env,
    _setup_environment environ = Return env
    /\ (has_key "OPENROUTER_API_KEY" environ = true ->
        env !! "LITELLM_MODEL" = Some "anthropic/claude-3.5-sonnet")
    /\ (has_key "OPENAI_API_KEY" environ = true ->
        env !! "LITELLM_MODEL" = Some "gpt-4")
    /\ (has_key "LITELLM_TEMPERATURE" environ = false ->
        env !! "LITELLM_TEMPERATURE" = Some "0.1").
Proof.
  intros Hmodel Hone. unfold _setup_environment. rewrite Hmodel. simpl negb.
  destruct (has_key "OPENROUTER_API_KEY" environ) eqn:Hor,
           (has_key "OPENAI_API_KEY" environ) eqn:Hoa;
    try discriminate Hone; simpl andb; cbv iota.
  - eexists. split; [reflexivity|].
    pose proof (temperature_default_lookup
                  (<["LITELLM_MODEL" := "anthropic/claude-3.5-sonnet"]> environ))
      as [Hm Ht].
    cbv zeta in Hm, Ht. repeat split.
    + intros _. rewrite Hm. apply lookup_insert_eq.
    + discriminate.
    + intros Hnt. apply Ht. by rewrite has_key_insert_ne.
  - eexists. split; [reflexivity|].
    pose proof (temperature_default_lookup (<["LITELLM_MODEL" := "gpt-4"]> environ))
      as [Hm Ht].
    cbv zeta in Hm, Ht. repeat split.
    + discriminate.
    + intros _. rewrite Hm. apply lookup_insert_eq.
    + intros Hnt. apply Ht. by rewrite has_key_insert_ne.
Qed.

Lemma setup_environment_single_credential_witness :
  exists env,
    _setup_environment {["OPENAI_API_KEY" := "sk-test"]} = Return env
    /\ (has_key "OPENROUTER_API_KEY" {["OPENAI_API_KEY" := "sk-test"]} = true ->
        env !! "LITELLM_MODEL" = Some "anthropic/claude-3.5-sonnet")
    /\ (has_key "OPENAI_API_KEY" {["OPENAI_API_KEY" := "sk-test"]} = true ->
        env !! "LITELLM_MODEL" = Some "gpt-4")
    /\ (has_key "LITELLM_TEMPERATURE" {["OPENAI_API_KEY" := "sk-test"]} = false ->
        env !! "LITELLM_TEMPERATURE" = Some "0.1").
Proof.
  apply (setup_environment_single_credential {["OPENAI_API_KEY" := "sk-test"]});
    vm_compute; reflexivity.
Defined.

(** C10: with both credentials and no LITELLM_MODEL, the OpenRouter default
    is chosen, never the OpenAI one. *)
Theorem setup_environment_prefers_openrouter (environ : gmap string string) :
  has_key "OPENROUTER_API_KEY" environ = true ->
  has_key "OPENAI_API_KEY" environ = true ->
  has_key "LITELLM_MODEL" environ = false ->
  exists env,
    _setup_environment environ = Return env
    /\ env !! "LITELLM_MODEL" = Some "anthropic/claude-3.5-sonnet"
    /\ env !! "LITELLM_MODEL" <> Some "gpt-4".
Proof.
  intros Hor Hoa Hmodel. unfold _setup_environment.
  rewrite Hor, Hoa, Hmodel. simpl.
  eexists. split; [reflexivity|].
  pose proof (temperature_default_lookup
                (<["LITELLM_MODEL" := "anthropic/claude-3.5-sonnet"]> environ))
    as [Hm _].
  cbv zeta in Hm. rewrite Hm, lookup_insert_eq. split; [done | discriminate].
Qed.

Lemma setup_environment_prefers_openrouter_witness :
  exists env,
    _setup_environment {["OPENROUTER_API_KEY" := "or-test"; "OPENAI_API_KEY" := "sk-test"]}
    = Return env
    /\ env !! "LITELLM_MODEL" = Some "anthropic/claude-3.5-sonnet"
    /\ env !! "LITELLM_MODEL" <> Some "gpt-4".
Proof.
  apply (setup_environment_prefers_openrouter
           {["OPENROUTER_API_KEY" := "or-test"; "OPENAI_API_KEY" := "sk-test"]});
    vm_compute; reflexivity.
Defined.

(** ** Processes and the snapshot *)

Lemma trace_subprocess_run who beh cmd cwd env timeout check :
  trace (subprocess_run who beh cmd cwd env timeout check) = [EvSpawn who cmd cwd env].
Proof.
  unfold subprocess_run. rewrite trace_bind. simpl.
  destruct beh as [elapsed cp|e]; [|done].
  destruct (overrun timeout elapsed); [done|].
  by destruct (check && negb (returncode cp =? 0)).
Qed.

(** The agent run has a timeout and no [check]: it returns the completed
    process unless the child fails to start or outlives the timeout. *)
Lemma result_agent_run beh cmd cwd env :
  result (subprocess_run Agent beh cmd cwd env (Some 3600) false)
  = match beh with
    | Fails f => Raise (exn_of f)
    | Exits elapsed cp =>
        if Qle_bool elapsed (inject_Z 3600) then Return cp
        else Raise (TimeoutExpired cmd 3600)
    end.
Proof.
  unfold subprocess_run. rewrite result_bind. simpl.
  destruct beh as [elapsed cp|e]; [|done].
  by destruct (Qle_bool elapsed (inject_Z 3600)).
Qed.

Lemma trace_fs_op ev answer : trace (fs_op ev answer) = [ev].
Proof. unfold fs_op. rewrite trace_bind. simpl. by destruct answer. Qed.

Lemma capture_git_metadata_events self sw logging_dir :
  Forall snapshot_event (trace (_capture_git_metadata self sw logging_dir)).
Proof.
  unfold _capture_git_metadata, _run_git, write_text.
  destruct logging_dir as [run_dir|]; [|by apply Forall_nil].
  repeat first
    [ rewrite trace_fs_op | rewrite trace_subprocess_run
    | apply Forall_trace_bind; [|intros ?] ];
    by repeat constructor.
Qed.

(** The guarded snapshot always returns, and leaves only snapshot events. *)
Lemma capture_git_metadata_guarded_returns self sw logging_dir :
  result (capture_git_metadata_guarded self sw logging_dir) = Return tt.
Proof.
  unfold capture_git_metadata_guarded. rewrite result_try_except.
  by destruct (result (_capture_git_metadata self sw logging_dir)) as [[]|e].
Qed.

Lemma capture_git_metadata_guarded_events self sw logging_dir :
  Forall snapshot_event (trace (capture_git_metadata_guarded self sw logging_dir)).
Proof.
  unfold capture_git_metadata_guarded. apply Forall_trace_try_except.
  - apply capture_git_metadata_events.
  - intros e. repeat constructor.
Qed.

(** ** How each path ends *)

Lemma result_print line : result (print line) = Return tt.
Proof. done. Qed.

Lemma trace_print line : trace (print line) = [EvPrint line].
Proof. done. Qed.

Lemma result_when_nonempty_print s line :
  result (when_nonempty s (print line)) = Return tt.
Proof. unfold when_nonempty. by destruct (Text.is_empty s). Qed.

Lemma result_lift {A} (o : outcome A) : result (lift o) = o.
Proof. done. Qed.

Ltac run_result :=
  repeat (rewrite ?result_bind, ?result_try_except, ?result_print,
            ?result_when_nonempty_print, ?capture_git_metadata_guarded_returns,
            ?result_agent_run, ?result_lift;
          cbv beta iota).

Lemma result_run_direct_execution self w instruction env logging_dir :
  result (_run_direct_execution self w instruction env logging_dir)
  = match agent w with
    | Fails f => Raise (exn_of f)
    | Exits elapsed cp =>
        if Qle_bool elapsed (inject_Z 3600) then
          match result (persist_logs w logging_dir cp) with
          | Return _ => Return (classify cp)
          | Raise e => Raise e
          end
        else Raise (TimeoutExpired
                      [node_executable self; agent_script self; "run"; instruction] 3600)
    end.
Proof.
  unfold _run_direct_execution. run_result.
  destruct (agent w) as [elapsed cp|f]; [|done].
  destruct (Qle_bool elapsed (inject_Z 3600)); [|done].
  run_result.
  destruct (result (persist_logs w logging_dir cp)) as [[]|e]; run_result;
    [done | by destruct (is_TimeoutExpired e)].
Qed.

Lemma result_run_with_terminal_bench_session self w instruction session env logging_dir :
  result (_run_with_terminal_bench_session self w instruction session env logging_dir)
  = Return
      match result (_find_tb_container_id w) with
      | Raise _ => unknown_agent_error
      | Return container_id =>
          if falsy container_id then unknown_agent_error
          else match agent w with
               | Fails _ => unknown_agent_error
               | Exits elapsed cp =>
                   if Qle_bool elapsed (inject_Z 3600) then classify cp
                   else unknown_agent_error
               end
      end.
Proof.
  unfold _run_with_terminal_bench_session. run_result.
  destruct (result (_find_tb_container_id w)) as [container_id|e]; run_result; [|done].
  destruct (falsy container_id); run_result; [done|].
  destruct (agent w) as [elapsed cp|e]; [|done].
  destruct (Qle_bool elapsed (inject_Z 3600)); [|done].
  by run_result.
Qed.

Lemma result_perform_task self w instruction session logging_dir :
  result (perform_task self w instruction session logging_dir)
  = match _setup_environment (os_environ w) with
    | Raise e =>
        Return (if is_TimeoutExpired e then timeout_result else unknown_agent_error)
    | Return env =>
        if has_send_keys session then
          result (_run_with_terminal_bench_session self w instruction session env logging_dir)
        else
          match result (_run_direct_execution self w instruction env logging_dir) with
          | Return r => Return r
          | Raise e =>
              Return (if is_TimeoutExpired e then timeout_result else unknown_agent_error)
          end
    end.
Proof.
  unfold perform_task. run_result.
  destruct (_setup_environment (os_environ w)) as [env|e]; run_result.
  - destruct (has_send_keys session).
    + by rewrite result_run_with_terminal_bench_session.
    + destruct (result (_run_direct_execution self w instruction env logging_dir))
        as [r|e]; [done|].
      by destruct (is_TimeoutExpired e).
  - by destruct (is_TimeoutExpired e).
Qed.

(** ** What each path leaves behind *)

Lemma result_listing w :
  result (listing w)
  = match docker_ps w with
    | Fails f => Raise (exn_of f)
    | Exits _ cp =>
        if returncode cp =? 0 then Return cp
        else Raise (CalledProcessError (returncode cp) docker_ps_cmd)
    end.
Proof.
  unfold listing, subprocess_run. rewrite result_bind. simpl.
  destruct (docker_ps w) as [elapsed cp|e]; [|done].
  by destruct (returncode cp =? 0).
Qed.

Lemma trace_listing w :
  trace (listing w) = [EvSpawn DockerPs docker_ps_cmd None None].
Proof. apply trace_subprocess_run. Qed.

(** Discovery spawns the container listing and nothing else. *)
Lemma trace_find_tb_container_id w :
  trace (_find_tb_container_id w) = [EvSpawn DockerPs docker_ps_cmd None None].
Proof.
  unfold _find_tb_container_id.
  rewrite trace_try_except, trace_bind, result_bind, trace_listing.
  destruct (result (listing w)) as [proc|e]; [|done].
  destruct (scan_lines _); [done|].
  destruct (Text.splitlines _) as [|first rest]; [done|].
  by destruct (Text.split first).
Qed.

Ltac run_trace :=
  repeat (rewrite ?trace_bind, ?trace_try_except, ?trace_print, ?trace_find_tb_container_id,
            ?trace_subprocess_run, ?result_bind, ?result_try_except, ?result_print,
            ?result_when_nonempty_print, ?capture_git_metadata_guarded_returns,
            ?result_agent_run, ?result_lift;
          cbv beta iota).

Lemma trace_session_not_found self w instruction session env logging_dir :
  match result (_find_tb_container_id w) with
  | Return container_id => falsy container_id = true
  | Raise _ => True
  end ->
  exists tail,
    trace (_run_with_terminal_bench_session self w instruction session env logging_dir)
    = [EvPrint "Running TypeScript agent with Terminal-Bench session integration";
       EvSpawn DockerPs docker_ps_cmd None None; EvPrint tail].
Proof.
  intros Hfind. unfold _run_with_terminal_bench_session. run_trace.
  destruct (result (_find_tb_container_id w)) as [container_id|e]; run_trace.
  - rewrite Hfind. run_trace. by eexists.
  - by eexists.
Qed.

Lemma trace_session_found self w instruction session env logging_dir container_id :
  result (_find_tb_container_id w) = Return container_id ->
  falsy container_id = false ->
  exists rest,
    trace (_run_with_terminal_bench_session self w instruction session env logging_dir)
    = [EvPrint "Running TypeScript agent with Terminal-Bench session integration";
       EvSpawn DockerPs docker_ps_cmd None None;
       EvPrint ("Discovered Terminal-Bench container: " +:+ default "" container_id);
       EvPrint ("Executing TS agent on host targeting container "
                +:+ default "" container_id);
       EvSpawn Agent (session_cmd self (default "" container_id) instruction)
         (Some (agent_dir self)) (Some (<["TERMINAL_BENCH_SESSION" := "true"]> env))]
      ++ rest.
Proof.
  intros Hfind Hfound. unfold _run_with_terminal_bench_session. run_trace.
  rewrite Hfind. run_trace. rewrite Hfound. run_trace.
  simpl. eexists. unfold session_cmd. reflexivity.
Qed.

Lemma trace_perform_task self w instruction session logging_dir :
  trace (perform_task self w instruction session logging_dir)
  = match _setup_environment (os_environ w) with
    | Raise e => [EvPrint (error_line e)]
    | Return env =>
        [EvPrint ("Session type: " +:+ session_type session);
         EvPrint ("Session has send_keys: " +:+ str_bool (has_send_keys session))]
        ++ (if has_send_keys session then
              trace (_run_with_terminal_bench_session self w instruction session env
                       logging_dir)
            else
              trace (_run_direct_execution self w instruction env logging_dir)
              ++ match result (_run_direct_execution self w instruction env logging_dir)
                 with
                 | Return _ => []
                 | Raise e => [EvPrint (error_line e)]
                 end)
    end.
Proof.
  unfold perform_task, error_line. run_trace.
  destruct (_setup_environment (os_environ w)) as [env|e]; run_trace.
  - destruct (has_send_keys session).
    + rewrite result_run_with_terminal_bench_session. simpl. by rewrite app_nil_r.
    + destruct (result (_run_direct_execution self w instruction env logging_dir))
        as [r|e]; [done|].
      simpl. by destruct (is_TimeoutExpired e).
  - simpl. by destruct (is_TimeoutExpired e).
Qed.

Lemma persist_logs_events w logging_dir cp :
  Forall (fun ev => spawns DockerPs ev = false) (trace (persist_logs w logging_dir cp)).
Proof.
  unfold persist_logs, write_log.
  destruct logging_dir as [dir|]; [|by apply Forall_nil].
  repeat first [ rewrite trace_fs_op | apply Forall_trace_bind; [|intros ?] ];
    by repeat constructor.
Qed.

Lemma when_nonempty_print_events (P : event -> Prop) s line :
  P (EvPrint line) -> Forall P (trace (when_nonempty s (print line))).
Proof.
  intros HP. unfold when_nonempty.
  destruct (Text.is_empty s); [by apply Forall_nil | by repeat constructor].
Qed.

(** The direct path never queries the container runtime. *)
Lemma run_direct_execution_events self w instruction env logging_dir :
  Forall (fun ev => spawns DockerPs ev = false)
    (trace (_run_direct_execution self w instruction env logging_dir)).
Proof.
  unfold _run_direct_execution. apply Forall_trace_try_except.
  - repeat first
      [ rewrite trace_print | rewrite trace_subprocess_run
      | apply persist_logs_events
      | apply when_nonempty_print_events
      | eapply Forall_impl;
          [apply capture_git_metadata_guarded_events | by intros ? [_ ?]]
      | apply Forall_trace_bind; [|intros ?] ];
      try by repeat constructor.
  - intros e. destruct (is_TimeoutExpired e); by apply Forall_nil.
Qed.

(** ** Container discovery *)

Lemma append_char_nonempty cur c :
  Text.is_empty (cur +:+ String c EmptyString) = false.
Proof. by destruct cur. Qed.

Lemma flush_nonempty cur part : part ∈ Text.flush cur -> Text.is_empty part = false.
Proof.
  unfold Text.flush. destruct (Text.is_empty cur) eqn:Hcur; intros Hin.
  - by apply elem_of_nil in Hin.
  - apply list_elem_of_singleton in Hin. by subst.
Qed.

Lemma split_go_nonempty s : forall cur part,
  part ∈ Text.split_go cur s -> Text.is_empty part = false.
Proof.
  induction s as [|c s IH]; intros cur part; simpl.
  - apply flush_nonempty.
  - destruct (Text.isspace c).
    + rewrite elem_of_app. intros [Hin|Hin]; [by eapply flush_nonempty | by eapply IH].
    + apply IH.
Qed.

(** [str.split()] yields no empty field. *)
Lemma split_nonempty s part : part ∈ Text.split s -> Text.is_empty part = false.
Proof. apply split_go_nonempty. Qed.

(** The loop returns the name found on the first line that matches. *)
Lemma scan_lines_first_match pre line post name :
  Forall (fun l => match_line l = None) pre ->
  match_line line = Some name ->
  scan_lines (pre ++ line :: post) = Some name.
Proof.
  intros Hpre Hline. induction Hpre as [|l pre Hl _ IH]; simpl.
  - by rewrite Hline.
  - by rewrite Hl.
Qed.

Lemma scan_lines_nil_of_none lines :
  scan_lines lines = None -> Forall (fun l => match_line l = None) lines.
Proof.
  induction lines as [|l lines IH]; simpl; [constructor|].
  destruct (match_line l) eqn:Hl; [discriminate|]. by constructor; [|apply IH].
Qed.

Lemma match_line_fields line cid image name rest :
  Text.split line = cid :: image :: name :: rest ->
  match_line line = if tb_match image name then Some name else None.
Proof. intros Hsplit. unfold match_line. by rewrite Hsplit. Qed.

(** Discovery has a handler for everything: it always returns. *)
Lemma find_tb_container_id_returns w :
  exists container_id, result (_find_tb_container_id w) = Return container_id.
Proof.
  unfold _find_tb_container_id. rewrite result_try_except.
  destruct (result (_ ≫= _)); by eexists.
Qed.

Lemma result_find_tb_container_id w :
  result (_find_tb_container_id w)
  = match result (listing w) with
    | Raise _ => Return None
    | Return proc =>
        let lines := Text.splitlines (Text.strip (stdout proc)) in
        match scan_lines lines with
        | Some name => Return (Some name)
        | None =>
            match lines with
            | [] => Return None
            | first :: _ =>
                match Text.split first with
                | cid :: _ => Return (Some cid)
                | [] => Return None
                end
            end
        end
    end.
Proof.
  unfold _find_tb_container_id. rewrite result_try_except, result_bind.
  destruct (result (listing w)) as [proc|e]; [|done]. cbv zeta.
  destruct (scan_lines _); [done|].
  destruct (Text.splitlines _) as [|first rest]; [done|].
  by destruct (Text.split first).
Qed.

(** ** The top-level call *)

Lemma setup_environment_raises_runtime_error environ e :
  _setup_environment environ = Raise e -> is_TimeoutExpired e = false.
Proof.
  unfold _setup_environment.
  destruct (negb (has_key "OPENROUTER_API_KEY" environ)
            && negb (has_key "OPENAI_API_KEY" environ)); [|discriminate].
  intros [= <-]. done.
Qed.

Lemma persist_logs_raises_os_error w logging_dir cp e :
  result (persist_logs w logging_dir cp) = Raise e -> is_TimeoutExpired e = false.
Proof.
  unfold persist_logs, write_log, fs_op. destruct logging_dir as [dir|]; [|discriminate].
  run_result.
  destruct (log_mkdir w); run_result; [by intros [= <-]|].
  destruct (log_write w "typescript_agent_stdout.log"); run_result; [by intros [= <-]|].
  destruct (log_write w "typescript_agent_stderr.log"); run_result; [by intros [= <-]|].
  discriminate.
Qed.

(** C3: when neither OPENROUTER_API_KEY nor OPENAI_API_KEY is set, environment
    resolution raises, the call returns the UnknownError result instead of
    raising, and all it leaves behind is one printed line: no process is
    spawned, no directory made, no file written. *)
Theorem missing_credentials_classified self (w : World) instruction session logging_dir :
  has_key "OPENROUTER_API_KEY" (os_environ w) = false ->
  has_key "OPENAI_API_KEY" (os_environ w) = false ->
  (exists msg, _setup_environment (os_environ w) = Raise (RuntimeError msg))
  /\ result (perform_task self w instruction session logging_dir)
     = Return unknown_agent_error
  /\ exists line,
       trace (perform_task self w instruction session logging_dir) = [EvPrint line].
Proof.
  intros Hor Hoa.
  assert (exists msg, _setup_environment (os_environ w) = Raise (RuntimeError msg))
    as [msg Hsetup].
  { unfold _setup_environment. rewrite Hor, Hoa. simpl. by eexists. }
  split; [by eexists|].
  rewrite result_perform_task, trace_perform_task, Hsetup. split; [done | by eexists].
Qed.

Lemma missing_credentials_classified_witness :
  (exists msg,
     _setup_environment (os_environ Sample.world_no_credentials) = Raise (RuntimeError msg))
  /\ result (perform_task Sample.wrapper Sample.world_no_credentials "fix the build"
               Sample.tmux_session (Some "/runs"))
     = Return unknown_agent_error
  /\ exists line,
       trace (perform_task Sample.wrapper Sample.world_no_credentials "fix the build"
                Sample.tmux_session (Some "/runs"))
       = [EvPrint line].
Proof.
  apply (missing_credentials_classified Sample.wrapper Sample.world_no_credentials);
    vm_compute; reflexivity.
Defined.


(** C6: the snapshot step is guarded: whatever happens inside it, the guarded
    step returns, and the AgentResult of the call is the same in every pair
    of worlds that differ only in how the snapshot step fares. *)
Theorem snapshot_never_changes_result self w sw instruction session logging_dir :
  result (capture_git_metadata_guarded self sw logging_dir) = Return tt
  /\ result (perform_task self (with_snapshot w sw) instruction session logging_dir)
     = result (perform_task self w instruction session logging_dir).
Proof.
  split; [apply capture_git_metadata_guarded_returns|].
  rewrite !result_perform_task. simpl os_environ.
  destruct (_setup_environment (os_environ w)) as [env|e]; [|done].
  destruct (has_send_keys session).
  - by rewrite !result_run_with_terminal_bench_session.
  - by rewrite !result_run_direct_execution.
Qed.

(** An otherwise successful call still reports None when git is missing. *)
Example snapshot_failure_keeps_success :
  result (_capture_git_metadata Sample.wrapper Sample.broken_snapshot (Some "/runs"))
  = Raise (OtherError "FileNotFoundError" "[Errno 2] No such file or directory: 'git'")
  /\ result (perform_task Sample.wrapper
               (with_snapshot Sample.world_ok Sample.broken_snapshot)
               "fix the build" Sample.plain_session (Some "/runs"))
     = Return {| failure_mode := NONE; total_input_tokens := 0; total_output_tokens := 0 |}.
Proof. split; vm_compute; reflexivity. Qed.

(** ** Timeouts *)

(** On the direct path an agent that outlives the timeout yields the Timeout
    result. *)
Lemma timeout_on_direct_path self w instruction session logging_dir env elapsed cp :
  has_send_keys session = false ->
  _setup_environment (os_environ w) = Return env ->
  agent w = Exits elapsed cp ->
  (3600 < elapsed)%Q ->
  result (perform_task self w instruction session logging_dir) = Return timeout_result.
Proof.
  intros Hplain Hsetup Hagent Hslow.
  rewrite result_perform_task, Hsetup, Hplain, result_run_direct_execution, Hagent.
  destruct (Qle_bool elapsed (inject_Z 3600)) eqn:Hle; [|done].
  apply Qle_bool_iff in Hle. by apply Qle_not_lt in Hle.
Qed.

(** On the session-integrated path the handler of
    [_run_with_terminal_bench_session] takes the [TimeoutExpired] first: the
    call yields the UnknownError result. *)
Lemma timeout_on_session_path self w instruction session logging_dir env
    container_id elapsed cp :
  has_send_keys session = true ->
  _setup_environment (os_environ w) = Return env ->
  result (_find_tb_container_id w) = Return container_id ->
  falsy container_id = false ->
  agent w = Exits elapsed cp ->
  (3600 < elapsed)%Q ->
  result (perform_task self w instruction session logging_dir)
  = Return unknown_agent_error.
Proof.
  intros Hkeys Hsetup Hfind Hfound Hagent Hslow.
  rewrite result_perform_task, Hsetup, Hkeys, result_run_with_terminal_bench_session,
    Hfind, Hfound, Hagent.
  destruct (Qle_bool elapsed (inject_Z 3600)) eqn:Hle; [|done].
  apply Qle_bool_iff in Hle. by apply Qle_not_lt in Hle.
Qed.

(** C1: with one container running and an agent that is still running after
    4000 seconds, the direct path returns the Timeout result, but the
    session-integrated path returns UnknownError, not Timeout. *)
Theorem session_timeout_reported_as_unknown_error :
  agent Sample.world_slow_agent
  = Exits 4000 {| returncode := 0; stdout := ""; stderr := "" |}
  /\ result (perform_task Sample.wrapper Sample.world_slow_agent "fix the build"
               Sample.plain_session None)
     = Return {| failure_mode := AGENT_TIMEOUT;
                 total_input_tokens := 0; total_output_tokens := 0 |}
  /\ result (perform_task Sample.wrapper Sample.world_slow_agent "fix the build"
               Sample.tmux_session None)
     = Return {| failure_mode := UNKNOWN_AGENT_ERROR;
                 total_input_tokens := 0; total_output_tokens := 0 |}.
Proof. repeat split; vm_compute; reflexivity. Qed.

(** ** Exit codes *)

(** A call that spawned the agent on the session-integrated path had found a
    container. *)
Lemma agent_spawned_session_found self w instruction session env logging_dir :
  agent_spawned
    (trace (_run_with_terminal_bench_session self w instruction session env logging_dir)) ->
  exists container_id,
    result (_find_tb_container_id w) = Return container_id /\ falsy container_id = false.
Proof.
  intros Hspawned. destruct (find_tb_container_id_returns w) as [container_id Hfind].
  exists container_id. split; [done|].
  destruct (falsy container_id) eqn:Hfalsy; [|done].
  destruct (trace_session_not_found self w instruction session env logging_dir)
    as [tail Htrace]; [by rewrite Hfind|].
  unfold agent_spawned in Hspawned. rewrite Htrace in Hspawned.
  repeat (apply Exists_cons in Hspawned as [Hspawned|Hspawned]; [done|]).
  by apply Exists_nil in Hspawned.
Qed.




(** ** Discovery failures *)

(** C5: discovery always returns a value; when the container listing raises
    or lists no container, that value is None, and the session-integrated
    path then returns the UnknownError result with zero token counts, having
    spawned the listing but no agent process. *)
Theorem discovery_failure_is_classified self w instruction session env logging_dir :
  (exists container_id, result (_find_tb_container_id w) = Return container_id)
  /\ ((exists e, result (listing w) = Raise e)
      \/ (exists proc, result (listing w) = Return proc
                       /\ Text.splitlines (Text.strip (stdout proc)) = []) ->
      result (_find_tb_container_id w) = Return None
      /\ result (_run_with_terminal_bench_session self w instruction session env logging_dir)
         = Return {| failure_mode := UNKNOWN_AGENT_ERROR;
                     total_input_tokens := 0; total_output_tokens := 0 |}
      /\ ~ agent_spawned
             (trace (_run_with_terminal_bench_session self w instruction session env
                       logging_dir))).
Proof.
  split; [apply find_tb_container_id_returns|]. intros Hlisting.
  assert (result (_find_tb_container_id w) = Return None) as Hfind.
  { rewrite result_find_tb_container_id.
    destruct Hlisting as [[e ->] | (proc & -> & Hlines)]; [done|].
    cbv zeta. by rewrite Hlines. }
  split; [done|]. split.
  - by rewrite result_run_with_terminal_bench_session, Hfind.
  - intros Hspawned. apply agent_spawned_session_found in Hspawned
      as (container_id & Hfind' & Hfound).
    rewrite Hfind in Hfind'. by injection Hfind' as <-.
Qed.

Lemma discovery_failure_is_classified_witness :
  result (_find_tb_container_id Sample.world_no_containers) = Return None
  /\ result (_run_with_terminal_bench_session Sample.wrapper Sample.world_no_containers
               "fix the build" Sample.tmux_session Sample.credentials (Some "/runs"))
     = Return {| failure_mode := UNKNOWN_AGENT_ERROR;
                 total_input_tokens := 0; total_output_tokens := 0 |}
  /\ ~ agent_spawned
         (trace (_run_with_terminal_bench_session Sample.wrapper
                   Sample.world_no_containers "fix the build" Sample.tmux_session
                   Sample.credentials (Some "/runs"))).
Proof.
  apply (discovery_failure_is_classified Sample.wrapper Sample.world_no_containers
           "fix the build" Sample.tmux_session Sample.credentials (Some "/runs")).
  right. exists {| returncode := 0; stdout := ""; stderr := "" |}.
  split; vm_compute; reflexivity.
Defined.

(** A listing that exits with a nonzero status raises, because of
    [check=True]. *)
Lemma listing_nonzero_exit_raises w elapsed cp :
  docker_ps w = Exits elapsed cp -> returncode cp <> 0 ->
  exists e, result (listing w) = Raise e.
Proof.
  intros Hps Hrc. rewrite result_listing, Hps.
  destruct (Z.eqb_spec (returncode cp) 0); [done | by eexists].
Qed.

(** ** Ordering of discovery and the agent process *)

Lemma discovery_before_agent (prefix : list event) d rest : forall pre ev post,
  Forall (fun e => spawns Agent e = false) prefix ->
  spawns DockerPs d = true ->
  prefix ++ d :: rest = pre ++ ev :: post ->
  spawns Agent ev = true ->
  discovery_attempted pre.
Proof.
  induction prefix as [|p prefix IH]; intros pre ev post Hprefix Hd Heq Hev.
  - destruct pre as [|x pre]; simplify_eq/=.
    + by destruct ev as [[] | | |].
    + by apply Exists_cons_hd.
  - apply Forall_cons in Hprefix as [Hp Hprefix].
    destruct pre as [|x pre]; simplify_eq/=; [congruence|].
    apply Exists_cons_tl. by eapply IH.
Qed.

Lemma session_trace_starts_with_discovery self w instruction session env logging_dir :
  exists line rest,
    trace (_run_with_terminal_bench_session self w instruction session env logging_dir)
    = EvPrint line :: EvSpawn DockerPs docker_ps_cmd None None :: rest.
Proof.
  destruct (find_tb_container_id_returns w) as [container_id Hfind].
  destruct (falsy container_id) eqn:Hfalsy.
  - destruct (trace_session_not_found self w instruction session env logging_dir)
      as [tail ->]; [by rewrite Hfind | by do 2 eexists].
  - destruct (trace_session_found self w instruction session env logging_dir
                container_id Hfind Hfalsy) as [rest ->].
    by do 2 eexists.
Qed.

(** C7: for a session with [send_keys], every spawn of the agent process is
    preceded by the container listing, and the listing is attempted whenever
    environment resolution succeeds; for a session without it, the listing is
    never attempted. *)
Theorem discovery_only_and_first_with_send_keys self w instruction session logging_dir :
  (has_send_keys session = true ->
   (forall pre ev post,
      trace (perform_task self w instruction session logging_dir) = pre ++ ev :: post ->
      spawns Agent ev = true ->
      discovery_attempted pre)
   /\ (forall env,
         _setup_environment (os_environ w) = Return env ->
         discovery_attempted (trace (perform_task self w instruction session logging_dir))))
  /\ (has_send_keys session = false ->
      ~ discovery_attempted (trace (perform_task self w instruction session logging_dir))).
Proof.
  rewrite trace_perform_task. split; intros Hkeys; rewrite Hkeys.
  - split.
    + intros pre ev post Htrace Hev.
      destruct (_setup_environment (os_environ w)) as [env|e].
      * destruct (session_trace_starts_with_discovery self w instruction session env
                    logging_dir) as (line & rest & Hshape).
        rewrite Hshape in Htrace.
        eapply (discovery_before_agent
                  [EvPrint _; EvPrint _; EvPrint _]); [| |exact Htrace|exact Hev];
          [by repeat constructor | done].
      * destruct pre as [|x [|y pre]]; simplify_eq/=.
    + intros env ->.
      destruct (session_trace_starts_with_discovery self w instruction session env
                  logging_dir) as (line & rest & ->).
      do 3 apply Exists_cons_tl. by apply Exists_cons_hd.
  - destruct (_setup_environment (os_environ w)) as [env|e]; intros Hattempt.
    + repeat (apply Exists_cons in Hattempt as [?|Hattempt]; [done|]).
      apply Exists_app in Hattempt as [Hattempt|Hattempt].
      * apply Exists_exists in Hattempt as (ev & Hin & Hev).
        pose proof (run_direct_execution_events self w instruction env logging_dir)
          as Hnone.
        rewrite Forall_forall in Hnone. by rewrite (Hnone ev Hin) in Hev.
      * destruct (result (_run_direct_execution _ _ _ _ _)).
        -- by apply Exists_nil in Hattempt.
        -- apply Exists_cons in Hattempt as [?|Hattempt]; [done|].
           by apply Exists_nil in Hattempt.
    + apply Exists_cons in Hattempt as [?|Hattempt]; [done|].
      by apply Exists_nil in Hattempt.
Qed.

Lemma discovery_only_and_first_with_send_keys_witness :
  discovery_attempted
    (take 6 (trace (perform_task Sample.wrapper Sample.world_ok "fix the build"
                      Sample.tmux_session None)))
  /\ discovery_attempted
       (trace (perform_task Sample.wrapper Sample.world_ok "fix the build"
                 Sample.tmux_session None))
  /\ ~ discovery_attempted
         (trace (perform_task Sample.wrapper Sample.world_ok "fix the build"
                   Sample.plain_session None)).
Proof.
  pose proof (discovery_only_and_first_with_send_keys Sample.wrapper Sample.world_ok
                "fix the build" Sample.tmux_session None) as [Hkeys _].
  pose proof (discovery_only_and_first_with_send_keys Sample.wrapper Sample.world_ok
                "fix the build" Sample.plain_session None) as [_ Hplain].
  destruct (Hkeys eq_refl) as [Hfirst Hattempt].
  split; [|split].
  - destruct (drop 6 (trace (perform_task Sample.wrapper Sample.world_ok "fix the build"
                               Sample.tmux_session None)))
      as [|ev post] eqn:Hdrop; [vm_compute in Hdrop; discriminate|].
    apply (Hfirst _ ev post).
    + rewrite <- Hdrop. symmetry. apply take_drop.
    + vm_compute in Hdrop. injection Hdrop as <- _. reflexivity.
  - eapply Hattempt. vm_compute. reflexivity.
  - apply Hplain. reflexivity.
Defined.

(** ** The container handed to the agent *)

Lemma tb_match_cases image name :
  Text.contains "terminal-bench" image = true
  \/ Text.endswith name "_agent_1" = true
  \/ Text.endswith name "_app_1" = true ->
  tb_match image name = true.
Proof.
  unfold tb_match. intros [-> | [-> | ->]]; [done | |]; by rewrite ?orb_true_r.
Qed.

(** C2 (as the code has it): when the listing succeeds and an entry with at
    least three fields has an image containing terminal-bench or a name
    ending in _agent_1 or _app_1, and no earlier line makes the loop return,
    discovery returns that entry's name (its third field), and the
    session-integrated path passes this name verbatim as the value of
    --container in the agent command line. *)
Theorem discovery_selects_matching_name self w instruction session env logging_dir
    proc pre line post cid image name rest :
  result (listing w) = Return proc ->
  Text.splitlines (Text.strip (stdout proc)) = pre ++ line :: post ->
  Forall (fun l => match_line l = None) pre ->
  Text.split line = cid :: image :: name :: rest ->
  Text.contains "terminal-bench" image = true
  \/ Text.endswith name "_agent_1" = true
  \/ Text.endswith name "_app_1" = true ->
  result (_find_tb_container_id w) = Return (Some name)
  /\ EvSpawn Agent
       [node_executable self; agent_script self; "run"; "--container"; name; instruction]
       (Some (agent_dir self)) (Some (<["TERMINAL_BENCH_SESSION" := "true"]> env))
     ∈ trace (_run_with_terminal_bench_session self w instruction session env logging_dir).
Proof.
  intros Hlisting Hlines Hpre Hsplit Hmatch. apply tb_match_cases in Hmatch.
  assert (result (_find_tb_container_id w) = Return (Some name)) as Hfind.
  { rewrite result_find_tb_container_id, Hlisting. cbv zeta. rewrite Hlines.
    rewrite (scan_lines_first_match pre line post name); [done | done |].
    by rewrite (match_line_fields _ _ _ _ _ Hsplit), Hmatch. }
  split; [done|].
  assert (falsy (Some name) = false) as Hfound.
  { apply (split_nonempty line). rewrite Hsplit. set_solver. }
  destruct (trace_session_found self w instruction session env logging_dir (Some name)
              Hfind Hfound) as [tail ->].
  simpl. unfold session_cmd. set_solver.
Qed.

Lemma discovery_selects_matching_name_witness :
  result (_find_tb_container_id Sample.world_ok) = Return (Some "task_agent_1")
  /\ EvSpawn Agent
       [node_executable Sample.wrapper; agent_script Sample.wrapper; "run"; "--container";
        "task_agent_1"; "fix the build"]
       (Some (agent_dir Sample.wrapper))
       (Some (<["TERMINAL_BENCH_SESSION" := "true"]> Sample.credentials))
     ∈ trace (_run_with_terminal_bench_session Sample.wrapper Sample.world_ok
                "fix the build" Sample.tmux_session Sample.credentials None).
Proof.
  apply (discovery_selects_matching_name Sample.wrapper Sample.world_ok "fix the build"
           Sample.tmux_session Sample.credentials None
           {| returncode := 0; stdout := "abc123 ubuntu task_agent_1" +:+ Sample.newline;
              stderr := "" |}
           [] "abc123 ubuntu task_agent_1" [] "abc123" "ubuntu" "task_agent_1" []).
  - vm_compute. reflexivity.
  - vm_compute. reflexivity.
  - constructor.
  - vm_compute. reflexivity.
  - right. left. vm_compute. reflexivity.
Defined.

(** C2 as stated fails: the listing shows one container with id abc123 whose
    name task_agent_1 ends in _agent_1; discovery returns the name, not the
    id, and the value of --container in the agent command line is the
    name. *)
Lemma discovery_returns_name_not_id :
  result (listing Sample.world_ok)
  = Return {| returncode := 0; stdout := "abc123 ubuntu task_agent_1" +:+ Sample.newline;
              stderr := "" |}
  /\ Text.split "abc123 ubuntu task_agent_1" = ["abc123"; "ubuntu"; "task_agent_1"]
  /\ Text.endswith "task_agent_1" "_agent_1" = true
  /\ result (_find_tb_container_id Sample.world_ok) <> Return (Some "abc123")
  /\ forall cwd env,
       EvSpawn Agent
         [node_executable Sample.wrapper; agent_script Sample.wrapper; "run"; "--container";
          "abc123"; "fix the build"] cwd env
       ∉ trace (_run_with_terminal_bench_session Sample.wrapper Sample.world_ok
                  "fix the build" Sample.tmux_session Sample.credentials None).
Proof.
  split; [by vm_compute|]. split; [by vm_compute|]. split; [by vm_compute|].
  split; [vm_compute; discriminate|].
  intros cwd env Hin.
  destruct (trace_session_found Sample.wrapper Sample.world_ok "fix the build"
              Sample.tmux_session Sample.credentials None (Some "task_agent_1"))
    as [rest Hrest]; [by vm_compute | done |].
  assert (rest = [EvPrint "done"]) as ->.
  { vm_compute in Hrest. by simplify_eq. }
  rewrite Hrest in Hin. set_unfold in Hin.
  destruct Hin as [Hin|[Hin|[Hin|[Hin|[Hin|[Hin|[]]]]]]]; discriminate Hin.
Qed.

(** * Further properties of the wrapper *)

(** ** Environment resolution, continued *)

Lemma has_key_insert_eq key v (env : gmap string string) :
  has_key key (<[key := v]> env) = true.
Proof. apply has_key_true. rewrite lookup_insert_eq. by eexists. Qed.

(** The two defaulting steps of [_setup_environment], read off a successful
    resolution. *)
Lemma setup_environment_steps environ env :
  _setup_environment environ = Return env ->
  exists model_env,
    (model_env = environ /\ has_key "LITELLM_MODEL" environ = true
     \/ has_key "LITELLM_MODEL" environ = false
        /\ exists model, model_env = <["LITELLM_MODEL" := model]> environ)
    /\ (env = model_env /\ has_key "LITELLM_TEMPERATURE" environ = true
        \/ has_key "LITELLM_TEMPERATURE" environ = false
           /\ env = <["LITELLM_TEMPERATURE" := "0.1"]> model_env).
Proof.
  unfold _setup_environment.
  destruct (negb (has_key "OPENROUTER_API_KEY" environ)
            && negb (has_key "OPENAI_API_KEY" environ)); [discriminate|].
  intros [= <-].
  destruct (has_key "LITELLM_MODEL" environ) eqn:Hmodel; simpl negb; cbv iota.
  - exists environ. split; [by left|].
    destruct (has_key "LITELLM_TEMPERATURE" environ); simpl; [by left | by right].
  - destruct (has_key "OPENROUTER_API_KEY" environ);
      (eexists; split; [right; split; [done | by eexists] |]);
      rewrite has_key_insert_ne by done;
      (destruct (has_key "LITELLM_TEMPERATURE" environ); simpl; [by left | by right]).
Qed.

Lemma setup_environment_keeps environ env :
  _setup_environment environ = Return env ->
  forall key value, environ !! key = Some value -> env !! key = Some value.
Proof.
  intros Hsetup key value Hkey.
  destruct (setup_environment_steps _ _ Hsetup) as (model_env & Hmodel & Htemp).
  assert (model_env !! key = Some value) as Hkey'.
  { destruct Hmodel as [[-> _] | [Hnone [model ->]]]; [done|].
    apply has_key_false in Hnone. rewrite lookup_insert_ne; [done | congruence]. }
  destruct Htemp as [[-> _] | [Hnone ->]]; [done|].
  apply has_key_false in Hnone. rewrite lookup_insert_ne; [done | congruence].
Qed.

Lemma setup_environment_needs_credential environ env :
  _setup_environment environ = Return env ->
  has_key "OPENROUTER_API_KEY" environ = true \/ has_key "OPENAI_API_KEY" environ = true.
Proof.
  unfold _setup_environment.
  destruct (has_key "OPENROUTER_API_KEY" environ); [by left|].
  destruct (has_key "OPENAI_API_KEY" environ); [by right | done].
Qed.

Lemma credential_resolves environ :
  has_key "OPENROUTER_API_KEY" environ = true \/ has_key "OPENAI_API_KEY" environ = true ->
  exists env, _setup_environment environ = Return env.
Proof.
  unfold _setup_environment.
  intros [-> | ->]; rewrite ?andb_false_r; by eexists.
Qed.

Lemma setup_environment_fills_defaults environ env :
  _setup_environment environ = Return env ->
  has_key "LITELLM_MODEL" env = true /\ has_key "LITELLM_TEMPERATURE" env = true.
Proof.
  intros Hsetup.
  destruct (setup_environment_steps _ _ Hsetup) as (model_env & Hmodel & Htemp).
  assert (has_key "LITELLM_MODEL" model_env = true) as Hm.
  { destruct Hmodel as [[-> ?] | [_ [model ->]]]; [done | apply has_key_insert_eq]. }
  destruct Htemp as [[-> Ht] | [_ ->]].
  - split; [done|]. apply has_key_true in Ht as [value Ht]. apply has_key_true.
    destruct Hmodel as [[-> _] | [Hnone [model ->]]]; [by eexists|].
    rewrite lookup_insert_ne by done. by eexists.
  - split; [by rewrite has_key_insert_ne | apply has_key_insert_eq].
Qed.

(** X1: resolution only adds: every ambient variable, an explicit
    LITELLM_MODEL or LITELLM_TEMPERATURE included, keeps its value, and the
    only names that can be new are LITELLM_MODEL and LITELLM_TEMPERATURE. *)
Theorem setup_environment_only_adds_defaults environ env :
  _setup_environment environ = Return env ->
  (forall key value, environ !! key = Some value -> env !! key = Some value)
  /\ (forall key, environ !! key = None ->
        key <> "LITELLM_MODEL" -> key <> "LITELLM_TEMPERATURE" -> env !! key = None).
Proof.
  intros Hsetup. split; [by apply setup_environment_keeps|].
  destruct (setup_environment_steps _ _ Hsetup) as (model_env & Hmodel & Htemp).
  intros key Hkey Hm Ht.
  destruct Htemp as [[-> _] | [_ ->]];
    rewrite ?lookup_insert_ne by done;
    (destruct Hmodel as [[-> _] | [_ [model ->]]];
     [done | by rewrite lookup_insert_ne]).
Qed.

Lemma setup_environment_only_adds_defaults_witness :
  (forall key value,
     Sample.credentials !! key = Some value ->
     (<["LITELLM_TEMPERATURE" := "0.1"]>
        (<["LITELLM_MODEL" := "gpt-4"]> Sample.credentials)) !! key = Some value)
  /\ (forall key, Sample.credentials !! key = None ->
        key <> "LITELLM_MODEL" -> key <> "LITELLM_TEMPERATURE" ->
        (<["LITELLM_TEMPERATURE" := "0.1"]>
           (<["LITELLM_MODEL" := "gpt-4"]> Sample.credentials)) !! key = None).
Proof.
  apply (setup_environment_only_adds_defaults Sample.credentials).
  vm_compute. reflexivity.
Defined.

(** X2: resolution succeeds exactly when one of the two credentials is set,
    and raises the RuntimeError otherwise. *)
Theorem setup_environment_succeeds_iff_credential environ :
  ((exists env, _setup_environment environ = Return env)
   <-> has_key "OPENROUTER_API_KEY" environ = true
       \/ has_key "OPENAI_API_KEY" environ = true)
  /\ ((exists msg, _setup_environment environ = Raise (RuntimeError msg))
      <-> has_key "OPENROUTER_API_KEY" environ = false
          /\ has_key "OPENAI_API_KEY" environ = false).
Proof.
  unfold _setup_environment.
  destruct (has_key "OPENROUTER_API_KEY" environ), (has_key "OPENAI_API_KEY" environ);
    simpl andb; cbv iota; (split; split);
    first [ by intros; eexists | by intros; left | by intros; right
          | by intros [? ?] | by intros [?|?] | by intros; split ].
Qed.

(** X3: a resolved environment holds a credential, a model and a
    temperature. *)
Theorem setup_environment_result_complete environ env :
  _setup_environment environ = Return env ->
  (has_key "OPENROUTER_API_KEY" env = true \/ has_key "OPENAI_API_KEY" env = true)
  /\ has_key "LITELLM_MODEL" env = true
  /\ has_key "LITELLM_TEMPERATURE" env = true.
Proof.
  intros Hsetup. split; [|by apply (setup_environment_fills_defaults environ)].
  destruct (setup_environment_needs_credential _ _ Hsetup) as [Hcred | Hcred];
    [left | right];
    apply has_key_true in Hcred as [value Hcred]; apply has_key_true;
    rewrite (setup_environment_keeps _ _ Hsetup _ _ Hcred); by eexists.
Qed.

Lemma setup_environment_result_complete_witness :
  (has_key "OPENROUTER_API_KEY"
     (<["LITELLM_TEMPERATURE" := "0.1"]> (<["LITELLM_MODEL" := "gpt-4"]> Sample.credentials))
   = true
   \/ has_key "OPENAI_API_KEY"
        (<["LITELLM_TEMPERATURE" := "0.1"]> (<["LITELLM_MODEL" := "gpt-4"]> Sample.credentials))
      = true)
  /\ has_key "LITELLM_MODEL"
       (<["LITELLM_TEMPERATURE" := "0.1"]> (<["LITELLM_MODEL" := "gpt-4"]> Sample.credentials))
     = true
  /\ has_key "LITELLM_TEMPERATURE"
       (<["LITELLM_TEMPERATURE" := "0.1"]> (<["LITELLM_MODEL" := "gpt-4"]> Sample.credentials))
     = true.
Proof.
  apply (setup_environment_result_complete Sample.credentials).
  vm_compute. reflexivity.
Defined.

(** X4: resolving an already resolved environment changes nothing. *)
Theorem setup_environment_idempotent environ env :
  _setup_environment environ = Return env ->
  _setup_environment env = Return env.
Proof.
  intros Hsetup.
  destruct (setup_environment_fills_defaults _ _ Hsetup) as [Hmodel Htemp].
  assert (has_key "OPENROUTER_API_KEY" env = true \/ has_key "OPENAI_API_KEY" env = true)
    as Hcred.
  { destruct (setup_environment_needs_credential _ _ Hsetup) as [Hcred | Hcred];
      [left | right];
      apply has_key_true in Hcred as [value Hcred]; apply has_key_true;
      rewrite (setup_environment_keeps _ _ Hsetup _ _ Hcred); by eexists. }
  unfold _setup_environment. rewrite Hmodel. simpl negb. cbv iota zeta. rewrite Htemp.
  by destruct Hcred as [-> | ->]; rewrite ?andb_false_r.
Qed.

Lemma setup_environment_idempotent_witness :
  _setup_environment
    (<["LITELLM_TEMPERATURE" := "0.1"]> (<["LITELLM_MODEL" := "gpt-4"]> Sample.credentials))
  = Return
      (<["LITELLM_TEMPERATURE" := "0.1"]> (<["LITELLM_MODEL" := "gpt-4"]> Sample.credentials)).
Proof.
  apply (setup_environment_idempotent Sample.credentials).
  vm_compute. reflexivity.
Defined.

(** ** Text primitives *)

Lemma append_cons x (a b : string) : String x a +:+ b = String x (a +:+ b).
Proof. done. Qed.

Lemma append_assoc (a b c : string) : (a +:+ b) +:+ c = a +:+ (b +:+ c).
Proof. induction a as [|x a IH]; [done|]. by rewrite !append_cons, IH. Qed.

Lemma append_nil_r (a : string) : a +:+ "" = a.
Proof. induction a as [|x a IH]; [done|]. by rewrite append_cons, IH. Qed.

Lemma append_is_empty (a b : string) :
  Text.is_empty b = false -> Text.is_empty (a +:+ b) = false.
Proof. by destruct a, b. Qed.

Lemma all_chars_app p (a b : string) :
  all_chars p (a +:+ b) = all_chars p a && all_chars p b.
Proof.
  induction a as [|x a IH]; [done|].
  rewrite append_cons. simpl. by rewrite IH, andb_assoc.
Qed.

Lemma all_chars_impl (p q : ascii -> bool) s :
  (forall c, p c = true -> q c = true) -> all_chars p s = true -> all_chars q s = true.
Proof.
  intros Hpq. induction s as [|c s IH]; simpl; [done|].
  intros [Hc Hs]%andb_true_iff. by rewrite (Hpq c Hc), IH.
Qed.

(** Every line boundary of [splitlines] is whitespace for [split] and
    [strip]. *)
Lemma linebreak_isspace c : Text.islinebreak c = true -> Text.isspace c = true.
Proof. destruct c as [[] [] [] [] [] [] [] []]; by vm_compute. Qed.

Lemma nonspace_not_linebreak c : Text.isspace c = false -> Text.islinebreak c = false.
Proof.
  intros Hc. destruct (Text.islinebreak c) eqn:Hb; [|done].
  by rewrite (linebreak_isspace c Hb) in Hc.
Qed.

Lemma lstrip_head s c s' : Text.lstrip s = String c s' -> Text.isspace c = false.
Proof.
  induction s as [|x s IH]; simpl; [done|].
  destruct (Text.isspace x) eqn:Hx; [done|]. by intros [= <- _].
Qed.

Lemma rstrip_head c s : Text.isspace c = false ->
  exists s', Text.rstrip (String c s) = String c s'.
Proof. intros Hc. simpl. rewrite Hc. destruct (Text.rstrip s); by eexists. Qed.

(** A stripped text is empty or begins with a character that is not
    whitespace. *)
Lemma strip_head s c s' : Text.strip s = String c s' -> Text.isspace c = false.
Proof.
  unfold Text.strip. destruct (Text.lstrip s) as [|x t] eqn:Hl; [done|].
  pose proof (lstrip_head _ _ _ Hl) as Hx.
  destruct (rstrip_head x t Hx) as [t' ->]. by intros [= <- _].
Qed.

Lemma splitlines_go_head s : forall cur,
  Text.is_empty cur = false ->
  exists suffix rest, Text.splitlines_go cur s = (cur +:+ suffix) :: rest.
Proof.
  induction s as [|c s IH]; intros cur Hcur; simpl.
  - exists "", []. unfold Text.flush. by rewrite Hcur, append_nil_r.
  - destruct (Text.islinebreak c).
    + exists "". rewrite append_nil_r.
      destruct s as [|c' s]; [by eexists|].
      destruct (Text.is_cr c && Text.is_lf c'); by eexists.
    + destruct (IH (cur +:+ String c "")) as (suffix & rest & ->);
        [by destruct cur|].
      exists (String c suffix), rest. by rewrite append_assoc.
Qed.

Lemma split_go_head s : forall cur,
  Text.is_empty cur = false ->
  exists suffix rest, Text.split_go cur s = (cur +:+ suffix) :: rest.
Proof.
  induction s as [|c s IH]; intros cur Hcur; simpl.
  - exists "", []. unfold Text.flush. by rewrite Hcur, append_nil_r.
  - destruct (Text.isspace c).
    + exists "". rewrite append_nil_r. unfold Text.flush. rewrite Hcur. by eexists.
    + destruct (IH (cur +:+ String c "")) as (suffix & rest & ->);
        [by destruct cur|].
      exists (String c suffix), rest. by rewrite append_assoc.
Qed.

Lemma splitlines_cons c s : Text.islinebreak c = false ->
  Text.splitlines (String c s) = Text.splitlines_go (String c "") s.
Proof. intros Hc. unfold Text.splitlines. simpl. by rewrite Hc. Qed.

Lemma split_cons c s : Text.isspace c = false ->
  Text.split (String c s) = Text.split_go (String c "") s.
Proof. intros Hc. unfold Text.split. simpl. by rewrite Hc. Qed.

(** The first line of a stripped, non-empty text has a first field. *)
Lemma stripped_first_line_has_field s c s' :
  Text.strip s = String c s' ->
  exists first others cid fields,
    Text.splitlines (Text.strip s) = first :: others
    /\ Text.split first = cid :: fields.
Proof.
  intros Hs. pose proof (strip_head _ _ _ Hs) as Hc. rewrite Hs.
  rewrite (splitlines_cons c s' (nonspace_not_linebreak c Hc)).
  destruct (splitlines_go_head s' (String c "")) as (suffix & others & ->); [done|].
  rewrite append_cons. exists (String c ("" +:+ suffix)), others.
  rewrite (split_cons c _ Hc).
  destruct (split_go_head ("" +:+ suffix) (String c "")) as (suffix' & fields & ->);
    [done|].
  by do 2 eexists.
Qed.

(** ** Container discovery, continued *)

Lemma match_line_some line name :
  match_line line = Some name ->
  exists cid image rest,
    Text.split line = cid :: image :: name :: rest /\ tb_match image name = true.
Proof.
  unfold match_line.
  destruct (Text.split line) as [|cid [|image [|name' rest]]]; simpl; try done.
  destruct (tb_match image name') eqn:Hmatch; [|done].
  intros [= <-]. by do 3 eexists.
Qed.

Lemma scan_lines_some lines name :
  scan_lines lines = Some name ->
  exists pre line post,
    lines = pre ++ line :: post
    /\ Forall (fun l => match_line l = None) pre
    /\ match_line line = Some name.
Proof.
  induction lines as [|l lines IH]; simpl; [done|].
  destruct (match_line l) as [name'|] eqn:Hl.
  - intros [= <-]. by exists [], l, lines.
  - intros (pre & line & post & -> & Hpre & Hline)%IH.
    exists (l :: pre), line, post. by repeat split; [constructor|].
Qed.

(** X5: discovery reports "not found" exactly when the listing raises or
    prints nothing but whitespace; any other output yields a container. *)
Theorem discovery_not_found_iff w :
  result (_find_tb_container_id w) = Return None
  <-> (exists e, result (listing w) = Raise e)
      \/ (exists proc, result (listing w) = Return proc
                       /\ Text.strip (stdout proc) = "").
Proof.
  rewrite result_find_tb_container_id. split.
  - destruct (result (listing w)) as [proc|e]; [|by left; eexists].
    intros Hnone. right. exists proc. split; [done|].
    destruct (Text.strip (stdout proc)) as [|c s'] eqn:Hstrip; [done|]. exfalso.
    destruct (stripped_first_line_has_field _ _ _ Hstrip)
      as (first & others & cid & fields & Hlines & Hfields).
    rewrite Hstrip in Hlines. cbv zeta in Hnone. rewrite Hlines in Hnone.
    destruct (scan_lines (first :: others)); [done|]. by rewrite Hfields in Hnone.
  - intros [[e ->] | (proc & -> & Hstrip)]; [done|].
    cbv zeta. by rewrite Hstrip.
Qed.

(** X6: what discovery returns is never the empty string, and it is either
    the third field of the first listed line that has three fields and
    matches the heuristic, or, when no line does, the first field of the
    first line. *)
Theorem discovery_sound w container :
  result (_find_tb_container_id w) = Return (Some container) ->
  Text.is_empty container = false
  /\ exists proc,
       result (listing w) = Return proc
       /\ ((exists pre line post cid image rest,
              Text.splitlines (Text.strip (stdout proc)) = pre ++ line :: post
              /\ Forall (fun l => match_line l = None) pre
              /\ Text.split line = cid :: image :: container :: rest
              /\ tb_match image container = true)
           \/ (exists first others fields,
                 Text.splitlines (Text.strip (stdout proc)) = first :: others
                 /\ Forall (fun l => match_line l = None) (first :: others)
                 /\ Text.split first = container :: fields)).
Proof.
  rewrite result_find_tb_container_id.
  destruct (result (listing w)) as [proc|e]; [|done]. cbv zeta.
  destruct (scan_lines _) as [name|] eqn:Hscan.
  - intros [= ->].
    apply scan_lines_some in Hscan as (pre & line & post & Hlines & Hpre & Hline).
    apply match_line_some in Hline as (cid & image & rest & Hsplit & Hmatch).
    split.
    + apply (split_nonempty line). rewrite Hsplit. set_solver.
    + exists proc. split; [done|]. left. by exists pre, line, post, cid, image, rest.
  - apply scan_lines_nil_of_none in Hscan.
    destruct (Text.splitlines _) as [|first others] eqn:Hlines; [done|].
    destruct (Text.split first) as [|cid fields] eqn:Hsplit; [done|].
    intros [= ->]. split.
    + apply (split_nonempty first). rewrite Hsplit. set_solver.
    + exists proc. split; [done|]. right. by exists first, others, fields.
Qed.

Lemma discovery_sound_witness :
  Text.is_empty "task_agent_1" = false
  /\ exists proc,
       result (listing Sample.world_ok) = Return proc
       /\ ((exists pre line post cid image rest,
              Text.splitlines (Text.strip (stdout proc)) = pre ++ line :: post
              /\ Forall (fun l => match_line l = None) pre
              /\ Text.split line = cid :: image :: "task_agent_1" :: rest
              /\ tb_match image "task_agent_1" = true)
           \/ (exists first others fields,
                 Text.splitlines (Text.strip (stdout proc)) = first :: others
                 /\ Forall (fun l => match_line l = None) (first :: others)
                 /\ Text.split first = "task_agent_1" :: fields)).
Proof.
  apply (discovery_sound Sample.world_ok "task_agent_1"). vm_compute. reflexivity.
Defined.

(** X7: when the listing succeeds and no line makes the loop return,
    discovery falls back to the first field of the first line (the id of the
    first listed container), and the session-integrated path hands it to the
    agent as the value of --container. *)
Theorem discovery_falls_back_to_first_id self w instruction session env logging_dir
    proc first others cid fields :
  result (listing w) = Return proc ->
  Text.splitlines (Text.strip (stdout proc)) = first :: others ->
  Forall (fun l => match_line l = None) (first :: others) ->
  Text.split first = cid :: fields ->
  result (_find_tb_container_id w) = Return (Some cid)
  /\ EvSpawn Agent
       [node_executable self; agent_script self; "run"; "--container"; cid; instruction]
       (Some (agent_dir self)) (Some (<["TERMINAL_BENCH_SESSION" := "true"]> env))
     ∈ trace (_run_with_terminal_bench_session self w instruction session env logging_dir).
Proof.
  intros Hlisting Hlines Hnone Hsplit.
  assert (result (_find_tb_container_id w) = Return (Some cid)) as Hfind.
  { rewrite result_find_tb_container_id, Hlisting. cbv zeta. rewrite Hlines.
    destruct (scan_lines (first :: others)) as [name|] eqn:Hscan; [|by rewrite Hsplit].
    apply scan_lines_some in Hscan as (pre & line & post & Heq & _ & Hline).
    rewrite Forall_forall in Hnone. rewrite Hnone in Hline; [done|].
    rewrite Heq. set_solver. }
  split; [done|].
  assert (falsy (Some cid) = false) as Hfound.
  { apply (split_nonempty first). rewrite Hsplit. set_solver. }
  destruct (trace_session_found self w instruction session env logging_dir (Some cid)
              Hfind Hfound) as [tail ->].
  simpl. unfold session_cmd. set_solver.
Qed.

Lemma discovery_falls_back_to_first_id_witness :
  result (_find_tb_container_id Fixture.world_unrelated_container)
  = Return (Some "abc123")
  /\ EvSpawn Agent
       [node_executable Sample.wrapper; agent_script Sample.wrapper; "run"; "--container";
        "abc123"; "fix the build"]
       (Some (agent_dir Sample.wrapper))
       (Some (<["TERMINAL_BENCH_SESSION" := "true"]> Sample.credentials))
     ∈ trace (_run_with_terminal_bench_session Sample.wrapper
                Fixture.world_unrelated_container "fix the build" Sample.tmux_session
                Sample.credentials None).
Proof.
  apply (discovery_falls_back_to_first_id Sample.wrapper
           Fixture.world_unrelated_container "fix the build" Sample.tmux_session
           Sample.credentials None
           {| returncode := 0; stdout := "abc123 ubuntu web" +:+ Sample.newline;
              stderr := "" |}
           "abc123 ubuntu web" [] "abc123" ["ubuntu"; "web"]).
  - vm_compute. reflexivity.
  - vm_compute. reflexivity.
  - repeat constructor.
  - vm_compute. reflexivity.
Defined.

(** ** The format of a listing entry *)

Lemma is_field_inv s :
  is_field s = true ->
  Text.is_empty s = false
  /\ all_chars (fun c => negb (Text.isspace c)) s = true.
Proof.
  unfold is_field. intros [He Hs]%andb_true_iff. by apply negb_true_iff in He.
Qed.

(** A run of non-whitespace characters goes to the current field whole. *)
Lemma split_go_field s : forall cur rest,
  all_chars (fun c => negb (Text.isspace c)) s = true ->
  Text.split_go cur (s +:+ rest) = Text.split_go (cur +:+ s) rest.
Proof.
  induction s as [|c s IH]; intros cur rest Hs.
  - by rewrite append_nil_r.
  - simpl in Hs. apply andb_true_iff in Hs as [Hc%negb_true_iff Hs].
    rewrite append_cons. simpl. rewrite Hc, (IH _ _ Hs), append_assoc.
    by rewrite append_cons.
Qed.

Lemma split_go_space cur rest :
  Text.split_go cur (" " +:+ rest) = Text.flush cur ++ Text.split_go "" rest.
Proof. done. Qed.

Lemma split_entry_fields cid image name :
  is_field cid = true -> is_field image = true -> is_field name = true ->
  Text.split (entry cid image name) = [cid; image; name].
Proof.
  intros [Hc1 Hc2]%is_field_inv [Hi1 Hi2]%is_field_inv [Hn1 Hn2]%is_field_inv.
  unfold Text.split, entry.
  rewrite (split_go_field cid "" _ Hc2), split_go_space.
  rewrite (split_go_field image "" _ Hi2), split_go_space.
  rewrite <- (append_nil_r name) at 1. rewrite (split_go_field name "" "" Hn2).
  simpl. unfold Text.flush. change ("" +:+ ?s) with s.
  by rewrite Hc1, Hi1, Hn1.
Qed.

Lemma split_field s : is_field s = true -> Text.split s = [s].
Proof.
  intros [Hne Hs]%is_field_inv. unfold Text.split.
  rewrite <- (append_nil_r s) at 1. rewrite (split_go_field s "" "" Hs).
  simpl. unfold Text.flush. change ("" +:+ s) with s. by rewrite Hne.
Qed.

(** X8: [split] undoes the joining of fields by single spaces, the format of
    a listing entry: fields that are not empty and hold no whitespace come
    back exactly, as many as went in. *)
Theorem split_join_fields fields :
  Forall (fun f => is_field f = true) fields ->
  Text.split (Text.join " " fields) = fields.
Proof.
  induction 1 as [|x rest Hx Hrest IH]; [done|].
  destruct rest as [|y rest]; [by apply split_field|].
  change (Text.join " " (x :: y :: rest)) with (x +:+ " " +:+ Text.join " " (y :: rest)).
  apply is_field_inv in Hx as [Hne Hx].
  unfold Text.split in *. rewrite (split_go_field x "" _ Hx), split_go_space, IH.
  unfold Text.flush. change ("" +:+ x) with x. by rewrite Hne.
Qed.

Lemma split_join_fields_witness :
  Text.split (Text.join " " ["abc123"; "ubuntu"; "task_agent_1"])
  = ["abc123"; "ubuntu"; "task_agent_1"].
Proof. apply split_join_fields. repeat constructor. Defined.

Lemma rstrip_snoc_space s c :
  Text.isspace c = true -> Text.rstrip (s +:+ String c "") = Text.rstrip s.
Proof.
  intros Hc. induction s as [|x s IH].
  - simpl. by rewrite Hc.
  - rewrite append_cons. simpl. by rewrite IH.
Qed.

Lemma rstrip_field s :
  is_field s = true -> Text.rstrip s = s.
Proof.
  intros [Hne Hs]%is_field_inv. clear Hne. induction s as [|c s IH]; [done|].
  simpl in Hs. apply andb_true_iff in Hs as [Hc%negb_true_iff Hs].
  simpl. rewrite (IH Hs), Hc. by destruct s.
Qed.

Lemma rstrip_app_field pre s :
  is_field s = true -> Text.rstrip (pre +:+ s) = pre +:+ s.
Proof.
  intros Hs. induction pre as [|c pre IH]; [by apply rstrip_field|].
  rewrite append_cons. simpl. rewrite IH.
  destruct (pre +:+ s) eqn:Happ; [|done].
  apply is_field_inv in Hs as [Hne _].
  pose proof (append_is_empty pre s Hne) as Hfull. by rewrite Happ in Hfull.
Qed.

Lemma splitlines_go_no_break s : forall cur,
  all_chars (fun c => negb (Text.islinebreak c)) s = true ->
  Text.splitlines_go cur s = Text.flush (cur +:+ s).
Proof.
  induction s as [|c s IH]; intros cur Hs; simpl.
  - by rewrite append_nil_r.
  - simpl in Hs. apply andb_true_iff in Hs as [Hc%negb_true_iff Hs].
    by rewrite Hc, (IH _ Hs), append_assoc.
Qed.

Lemma field_no_break s :
  is_field s = true -> all_chars (fun c => negb (Text.islinebreak c)) s = true.
Proof.
  intros [_ Hs]%is_field_inv. revert Hs. apply all_chars_impl.
  intros c Hc%negb_true_iff. by rewrite (nonspace_not_linebreak c Hc).
Qed.

(** The text of a listing that shows one entry, as read by discovery, is
    that entry alone. *)
Lemma entry_lines cid image name :
  is_field cid = true -> is_field image = true -> is_field name = true ->
  Text.splitlines (Text.strip (entry cid image name +:+ Sample.newline))
  = [entry cid image name].
Proof.
  intros Hcid Himage Hname.
  assert (Text.strip (entry cid image name +:+ Sample.newline) = entry cid image name)
    as ->.
  { unfold Text.strip.
    assert (Text.lstrip (entry cid image name +:+ Sample.newline)
            = entry cid image name +:+ Sample.newline) as ->.
    { unfold entry. destruct cid as [|c cid]; [done|].
      apply is_field_inv in Hcid as [_ Hc]. simpl in Hc.
      apply andb_true_iff in Hc as [Hc%negb_true_iff _].
      rewrite !append_cons. simpl. by rewrite Hc. }
    unfold Sample.newline. rewrite rstrip_snoc_space by (by vm_compute).
    unfold entry. rewrite <- !append_assoc. by apply rstrip_app_field. }
  unfold Text.splitlines. rewrite splitlines_go_no_break.
  - unfold Text.flush. change ("" +:+ ?s) with s.
    assert (Text.is_empty (entry cid image name) = false) as ->; [|done].
    unfold entry. rewrite <- !append_assoc. apply append_is_empty.
    by apply is_field_inv in Hname as [? _].
  - unfold entry. rewrite !all_chars_app.
    rewrite (field_no_break cid), (field_no_break image), (field_no_break name) by done.
    by vm_compute.
Qed.

(** X9: for a listing that shows one well-formed entry, discovery returns
    the entry's name when the heuristic matches and its id otherwise. *)
Theorem discovery_single_entry w elapsed cid image name err :
  is_field cid = true -> is_field image = true -> is_field name = true ->
  docker_ps w
  = Exits elapsed {| returncode := 0;
                     stdout := entry cid image name +:+ Sample.newline;
                     stderr := err |} ->
  result (_find_tb_container_id w)
  = Return (Some (if tb_match image name then name else cid)).
Proof.
  intros Hcid Himage Hname Hps.
  rewrite result_find_tb_container_id, result_listing, Hps.
  cbn [returncode stdout Z.eqb]. rewrite (entry_lines _ _ _ Hcid Himage Hname).
  cbn [scan_lines].
  rewrite (match_line_fields _ cid image name []
             (split_entry_fields _ _ _ Hcid Himage Hname)).
  destruct (tb_match image name); [done|].
  by rewrite (split_entry_fields _ _ _ Hcid Himage Hname).
Qed.

Lemma discovery_single_entry_witness :
  result (_find_tb_container_id Fixture.world_unrelated_container)
  = Return (Some (if tb_match "ubuntu" "web" then "web" else "abc123")).
Proof.
  apply (discovery_single_entry Fixture.world_unrelated_container 1 "abc123" "ubuntu"
           "web" ""); vm_compute; reflexivity.
Defined.

(** ** The snapshot step *)

Lemma str_or_empty_r a b : Text.str_or a (Text.str_or b "") = Text.str_or a b.
Proof. unfold Text.str_or. by destruct a, b. Qed.

Lemma result_fs_op ev answer :
  result (fs_op ev answer)
  = match answer with Some f => Raise (exn_of f) | None => Return tt end.
Proof. unfold fs_op. rewrite result_bind. simpl. by destruct answer. Qed.

Lemma result_run_git self sw args :
  result (_run_git self sw args)
  = match git sw args with
    | Exits _ cp => Return cp
    | Fails f => Raise (exn_of f)
    end.
Proof.
  unfold _run_git, subprocess_run. rewrite result_bind. simpl.
  by destruct (git sw args).
Qed.

Lemma trace_run_git self sw args :
  trace (_run_git self sw args) = [EvSpawn Git ("git" :: args) (Some (agent_dir self)) None].
Proof. apply trace_subprocess_run. Qed.

Ltac run_snapshot :=
  repeat (rewrite ?trace_bind, ?result_bind, ?trace_fs_op, ?result_fs_op,
            ?trace_run_git, ?result_run_git;
          cbv beta iota).

(** X10: when the directory can be made, git can be started and the files
    can be written, the snapshot makes the directory, runs the four queries
    and then writes the four files, each holding the query's standard output
    or, when that is empty, its error output; the exit status of git plays
    no part. *)
Theorem capture_git_metadata_writes_snapshot self sw run_dir
    e1 status e2 diff_ws e3 diff_staged e4 head :
  snap_mkdir sw = None ->
  (forall name, snap_write sw name = None) ->
  git sw ["status"; "--porcelain=v1"; "--branch"] = Exits e1 status ->
  git sw ["diff"] = Exits e2 diff_ws ->
  git sw ["diff"; "--cached"] = Exits e3 diff_staged ->
  git sw ["show"; "--no-patch"; "--pretty=fuller"; "HEAD"] = Exits e4 head ->
  result (_capture_git_metadata self sw (Some run_dir)) = Return tt
  /\ trace (_capture_git_metadata self sw (Some run_dir))
     = [EvMkdir run_dir;
        EvSpawn Git ["git"; "status"; "--porcelain=v1"; "--branch"]
          (Some (agent_dir self)) None;
        EvSpawn Git ["git"; "diff"] (Some (agent_dir self)) None;
        EvSpawn Git ["git"; "diff"; "--cached"] (Some (agent_dir self)) None;
        EvSpawn Git ["git"; "show"; "--no-patch"; "--pretty=fuller"; "HEAD"]
          (Some (agent_dir self)) None;
        EvWrite (path_join run_dir "git-status.txt")
          (Text.str_or (stdout status) (stderr status));
        EvWrite (path_join run_dir "git-diff.patch")
          (Text.str_or (stdout diff_ws) (stderr diff_ws));
        EvWrite (path_join run_dir "git-diff-staged.patch")
          (Text.str_or (stdout diff_staged) (stderr diff_staged));
        EvWrite (path_join run_dir "git-head.txt")
          (Text.str_or (stdout head) (stderr head))].
Proof.
  intros Hmkdir Hwrite H1 H2 H3 H4.
  unfold _capture_git_metadata, write_text. run_snapshot.
  rewrite Hmkdir. run_snapshot. rewrite H1. run_snapshot. rewrite H2. run_snapshot.
  rewrite H3. run_snapshot. rewrite H4. run_snapshot.
  rewrite !Hwrite, !str_or_empty_r. by cbv beta iota.
Qed.

Lemma capture_git_metadata_writes_snapshot_witness :
  result (_capture_git_metadata Sample.wrapper Sample.working_snapshot (Some "/runs"))
  = Return tt
  /\ trace (_capture_git_metadata Sample.wrapper Sample.working_snapshot (Some "/runs"))
     = [EvMkdir "/runs";
        EvSpawn Git ["git"; "status"; "--porcelain=v1"; "--branch"]
          (Some (agent_dir Sample.wrapper)) None;
        EvSpawn Git ["git"; "diff"] (Some (agent_dir Sample.wrapper)) None;
        EvSpawn Git ["git"; "diff"; "--cached"] (Some (agent_dir Sample.wrapper)) None;
        EvSpawn Git ["git"; "show"; "--no-patch"; "--pretty=fuller"; "HEAD"]
          (Some (agent_dir Sample.wrapper)) None;
        EvWrite (path_join "/runs" "git-status.txt") (Text.str_or "" "");
        EvWrite (path_join "/runs" "git-diff.patch") (Text.str_or "" "");
        EvWrite (path_join "/runs" "git-diff-staged.patch") (Text.str_or "" "");
        EvWrite (path_join "/runs" "git-head.txt") (Text.str_or "" "")].
Proof.
  apply (capture_git_metadata_writes_snapshot Sample.wrapper Sample.working_snapshot
           "/runs" 1 {| returncode := 0; stdout := ""; stderr := "" |}
           1 {| returncode := 0; stdout := ""; stderr := "" |}
           1 {| returncode := 0; stdout := ""; stderr := "" |}
           1 {| returncode := 0; stdout := ""; stderr := "" |});
    reflexivity.
Defined.

(** X11: the four queries come before the first write: when one of them
    cannot be started, the snapshot raises and has written no file. *)
Theorem capture_git_metadata_no_partial_snapshot self sw run_dir args f :
  args ∈ git_queries ->
  git sw args = Fails f ->
  (exists e, result (_capture_git_metadata self sw (Some run_dir)) = Raise e)
  /\ Forall (fun ev => match ev with EvWrite _ _ => False | _ => True end)
       (trace (_capture_git_metadata self sw (Some run_dir))).
Proof.
  intros Hargs Hfails.
  unfold _capture_git_metadata, write_text. run_snapshot.
  destruct (snap_mkdir sw); run_snapshot; [split; [by eexists | by repeat constructor]|].
  unfold git_queries in Hargs. set_unfold in Hargs.
  destruct (git sw ["status"; "--porcelain=v1"; "--branch"]) eqn:H1; run_snapshot;
    [|split; [by eexists | by repeat constructor]].
  destruct (git sw ["diff"]) eqn:H2; run_snapshot;
    [|split; [by eexists | by repeat constructor]].
  destruct (git sw ["diff"; "--cached"]) eqn:H3; run_snapshot;
    [|split; [by eexists | by repeat constructor]].
  destruct (git sw ["show"; "--no-patch"; "--pretty=fuller"; "HEAD"]) eqn:H4;
    run_snapshot; [|split; [by eexists | by repeat constructor]].
  destruct_or!; subst; first [congruence | done].
Qed.

Lemma capture_git_metadata_no_partial_snapshot_witness :
  (exists e,
     result (_capture_git_metadata Sample.wrapper Sample.broken_snapshot (Some "/runs"))
     = Raise e)
  /\ Forall (fun ev => match ev with EvWrite _ _ => False | _ => True end)
       (trace (_capture_git_metadata Sample.wrapper Sample.broken_snapshot (Some "/runs"))).
Proof.
  apply (capture_git_metadata_no_partial_snapshot Sample.wrapper Sample.broken_snapshot
           "/runs" ["diff"]
           (mkFailure "FileNotFoundError" "[Errno 2] No such file or directory: 'git'")).
  - unfold git_queries. set_solver.
  - reflexivity.
Defined.

(** ** What a call may do *)

Ltac census :=
  repeat first
    [ rewrite trace_print | rewrite trace_subprocess_run | rewrite trace_fs_op
    | rewrite trace_run_git | rewrite trace_find_tb_container_id
    | apply when_nonempty_print_events
    | apply Forall_trace_bind; [|intros ?] ].

Lemma capture_git_metadata_permitted self sw instruction session logging_dir :
  Forall (permitted self instruction session logging_dir)
    (trace (capture_git_metadata_guarded self sw logging_dir)).
Proof.
  unfold capture_git_metadata_guarded. apply Forall_trace_try_except.
  - unfold _capture_git_metadata, write_text.
    destruct logging_dir as [run_dir|]; [|by apply Forall_nil].
    census; apply Forall_singleton; simpl; first
      [ done
      | split; [by eexists|]; split; [done|]; split; [done|];
        eexists; split; [|reflexivity]; unfold git_queries; set_solver
      | do 2 eexists; split; [done|]; split; [done|];
        left; unfold snapshot_files; set_solver ].
  - intros e. by apply Forall_singleton.
Qed.

Lemma persist_logs_permitted self w instruction session logging_dir cp :
  has_send_keys session = false ->
  Forall (permitted self instruction session logging_dir)
    (trace (persist_logs w logging_dir cp)).
Proof.
  intros Hplain. unfold persist_logs, write_log.
  destruct logging_dir as [dir|]; [|by apply Forall_nil].
  census; apply Forall_singleton; simpl; first
    [ done
    | do 2 eexists; split; [done|]; split; [done|];
      right; split; [done|]; unfold log_files; set_solver ].
Qed.

Lemma run_direct_execution_permitted self w instruction session env logging_dir :
  has_send_keys session = false ->
  Forall (permitted self instruction session logging_dir)
    (trace (_run_direct_execution self w instruction env logging_dir)).
Proof.
  intros Hplain. unfold _run_direct_execution. apply Forall_trace_try_except.
  - repeat first
      [ apply capture_git_metadata_permitted
      | apply (persist_logs_permitted _ _ _ _ _ _ Hplain)
      | progress census ];
      first [ done | by apply Forall_nil
            | apply Forall_singleton; simpl; rewrite ?Hplain; by eauto ].
  - intros e. destruct (is_TimeoutExpired e); by apply Forall_nil.
Qed.

Lemma run_with_terminal_bench_session_permitted self w instruction session env
    logging_dir :
  has_send_keys session = true ->
  Forall (permitted self instruction session logging_dir)
    (trace (_run_with_terminal_bench_session self w instruction session env logging_dir)).
Proof.
  intros Hkeys. unfold _run_with_terminal_bench_session.
  apply Forall_trace_try_except.
  - apply Forall_trace_bind; [by apply Forall_singleton|intros _].
    apply Forall_trace_bind; [|intros container_id].
    { rewrite trace_find_tb_container_id. by apply Forall_singleton. }
    destruct (falsy container_id).
    + census; first [by apply Forall_singleton | by apply Forall_nil].
    + repeat first [ apply capture_git_metadata_permitted | progress census ];
        first [ done | by apply Forall_nil
              | apply Forall_singleton; simpl; rewrite ?Hkeys; by eauto ].
  - intros e. census; first [by apply Forall_singleton | by apply Forall_nil].
Qed.

Lemma perform_task_trace_permitted self w instruction session logging_dir :
  Forall (permitted self instruction session logging_dir)
    (trace (perform_task self w instruction session logging_dir)).
Proof.
  rewrite trace_perform_task.
  destruct (_setup_environment (os_environ w)) as [env|e]; [|by repeat constructor].
  apply Forall_app. split; [by repeat constructor|].
  destruct (has_send_keys session) eqn:Hkeys.
  - by apply run_with_terminal_bench_session_permitted.
  - apply Forall_app. split; [by apply run_direct_execution_permitted|].
    destruct (result (_run_direct_execution _ _ _ _ _)); by repeat constructor.
Qed.

(** X12: everything a call does is a printed line, the container listing
    (sessions with [send_keys] only), the agent process (started in the
    wrapper's directory, with the command line of its path), one of the four
    git queries, or the making of the logging directory and the writing of a
    snapshot file or (direct path only) a log file inside it. *)
Theorem perform_task_permitted_events self w instruction session logging_dir ev :
  ev ∈ trace (perform_task self w instruction session logging_dir) ->
  match ev with
  | EvPrint _ => True
  | EvSpawn DockerPs cmd cwd env =>
      has_send_keys session = true /\ cmd = docker_ps_cmd /\ cwd = None /\ env = None
  | EvSpawn Agent cmd cwd env =>
      cwd = Some (agent_dir self) /\ is_Some env
      /\ if has_send_keys session
         then exists container, cmd = session_cmd self container instruction
         else cmd = [node_executable self; agent_script self; "run"; instruction]
  | EvSpawn Git cmd cwd env =>
      is_Some logging_dir /\ cwd = Some (agent_dir self) /\ env = None
      /\ exists args, args ∈ git_queries /\ cmd = "git" :: args
  | EvMkdir path => logging_dir = Some path
  | EvWrite path _ =>
      exists dir name,
        logging_dir = Some dir /\ path = path_join dir name
        /\ (name ∈ snapshot_files \/ has_send_keys session = false /\ name ∈ log_files)
  end.
Proof.
  intros Hin.
  pose proof (perform_task_trace_permitted self w instruction session logging_dir)
    as Hall.
  rewrite Forall_forall in Hall. exact (Hall ev Hin).
Qed.

Lemma perform_task_permitted_events_witness : Some "/runs" = Some "/runs".
Proof.
  apply (perform_task_permitted_events Sample.wrapper Sample.world_ok "fix the build"
           Sample.plain_session (Some "/runs") (EvMkdir "/runs")).
  apply list_elem_of_lookup. exists 6%nat. vm_compute. reflexivity.
Defined.

(** X13: without a logging directory a call makes no directory, writes no
    file and runs no git. *)
Theorem no_logging_dir_nothing_persisted self w instruction session :
  Forall (fun ev => persists ev = false)
    (trace (perform_task self w instruction session None)).
Proof.
  eapply Forall_impl; [apply perform_task_trace_permitted|].
  intros [[] cmd cwd env | path | path content | line]; simpl; try done.
  - by intros [[? [=]] _].
  - by intros (dir & name & [=] & _).
Qed.

(** X14: on the session-integrated path the output of the agent is never
    written to a file: every file written is one of the four snapshot files
    in the logging directory. *)
Theorem session_path_writes_only_snapshot self w instruction session logging_dir
    path content :
  has_send_keys session = true ->
  EvWrite path content ∈ trace (perform_task self w instruction session logging_dir) ->
  exists dir name,
    logging_dir = Some dir /\ path = path_join dir name /\ name ∈ snapshot_files.
Proof.
  intros Hkeys Hin.
  pose proof (perform_task_trace_permitted self w instruction session logging_dir)
    as Hall.
  rewrite Forall_forall in Hall. apply Hall in Hin. simpl in Hin.
  destruct Hin as (dir & name & Hdir & Hpath & [Hname | [Hplain _]]).
  - by exists dir, name.
  - congruence.
Qed.

(** ** Spawns and persisted output *)

Lemma persist_logs_snapshot_events w logging_dir cp :
  Forall snapshot_event (trace (persist_logs w logging_dir cp)).
Proof.
  unfold persist_logs, write_log.
  destruct logging_dir as [dir|]; [|by apply Forall_nil].
  census; by apply Forall_singleton.
Qed.

(** After the agent is spawned on the direct path, neither the agent nor the
    container listing is started again. *)
Lemma trace_run_direct_execution self w instruction env logging_dir :
  exists tail,
    trace (_run_direct_execution self w instruction env logging_dir)
    = [EvPrint ("Running TypeScript agent with task: " +:+ instruction);
       EvPrint ("Working directory: " +:+ agent_dir self);
       EvPrint ("Model: " +:+ default "default" (env !! "LITELLM_MODEL"));
       EvSpawn Agent [node_executable self; agent_script self; "run"; instruction]
         (Some (agent_dir self)) (Some env)] ++ tail
    /\ Forall snapshot_event tail.
Proof.
  unfold _run_direct_execution.
  rewrite trace_try_except. rewrite !trace_bind, !trace_print, !result_print.
  cbv beta iota. rewrite trace_subprocess_run.
  eexists. split; [cbn [app]; reflexivity|].
  apply Forall_app. split.
  - destruct (result (subprocess_run _ _ _ _ _ _ _)) as [cp|e]; [|by apply Forall_nil].
    repeat first
      [ apply capture_git_metadata_guarded_events
      | apply persist_logs_snapshot_events
      | progress census ];
      first [ done | by apply Forall_nil | by apply Forall_singleton ].
  - destruct (result (_ ≫= _)) as [r|e]; [by apply Forall_nil|].
    destruct (is_TimeoutExpired e); by apply Forall_nil.
Qed.

(** After the agent is spawned on the session-integrated path, neither the
    agent nor the container listing is started again. *)
Lemma trace_session_found_tail self w instruction session env logging_dir container_id :
  result (_find_tb_container_id w) = Return container_id ->
  falsy container_id = false ->
  exists tail,
    trace (_run_with_terminal_bench_session self w instruction session env logging_dir)
    = [EvPrint "Running TypeScript agent with Terminal-Bench session integration";
       EvSpawn DockerPs docker_ps_cmd None None;
       EvPrint ("Discovered Terminal-Bench container: " +:+ default "" container_id);
       EvPrint ("Executing TS agent on host targeting container "
                +:+ default "" container_id);
       EvSpawn Agent (session_cmd self (default "" container_id) instruction)
         (Some (agent_dir self)) (Some (<["TERMINAL_BENCH_SESSION" := "true"]> env))]
      ++ tail
    /\ Forall snapshot_event tail.
Proof.
  intros Hfind Hfound. unfold _run_with_terminal_bench_session.
  rewrite trace_try_except, trace_bind, trace_print, result_print. cbv beta iota.
  rewrite trace_bind, trace_find_tb_container_id, Hfind. cbv beta iota.
  rewrite Hfound. rewrite !trace_bind, !trace_print, !result_print. cbv beta iota.
  rewrite trace_subprocess_run.
  eexists. split; [cbn [app]; reflexivity|].
  apply Forall_app. split.
  - destruct (result (subprocess_run _ _ _ _ _ _ _)) as [cp|e]; [|by apply Forall_nil].
    repeat first [ apply capture_git_metadata_guarded_events | progress census ];
      first [ done | by apply Forall_nil | by apply Forall_singleton ].
  - destruct (result (_ ≫= _)) as [r|e]; [by apply Forall_nil|].
    census; first [ by apply Forall_nil | by apply Forall_singleton ].
Qed.

Lemma spawn_count_app who t1 t2 :
  spawn_count who (t1 ++ t2) = (spawn_count who t1 + spawn_count who t2)%nat.
Proof. unfold spawn_count. by rewrite List.filter_app, length_app. Qed.

Lemma spawn_count_none who t :
  Forall (fun ev => spawns who ev = false) t -> spawn_count who t = 0%nat.
Proof.
  unfold spawn_count. induction 1 as [|ev t Hev _ IH]; simpl; [done|]. by rewrite Hev.
Qed.

Lemma spawn_count_snapshot_events t :
  Forall snapshot_event t ->
  spawn_count Agent t = 0%nat /\ spawn_count DockerPs t = 0%nat.
Proof.
  intros Ht. split; apply spawn_count_none; eapply Forall_impl; try exact Ht;
    by intros ev [? ?].
Qed.

(** X15: nothing is retried: one call starts the agent at most once and the
    container listing at most once. *)
Theorem perform_task_spawns_at_most_once self w instruction session logging_dir :
  (spawn_count Agent (trace (perform_task self w instruction session logging_dir)) <= 1
   /\ spawn_count DockerPs (trace (perform_task self w instruction session logging_dir))
      <= 1)%nat.
Proof.
  rewrite trace_perform_task.
  destruct (_setup_environment (os_environ w)) as [env|e]; [|by split; unfold spawn_count; simpl; lia].
  rewrite !spawn_count_app.
  destruct (has_send_keys session).
  - destruct (find_tb_container_id_returns w) as [container_id Hfind].
    destruct (falsy container_id) eqn:Hfalsy.
    + destruct (trace_session_not_found self w instruction session env logging_dir)
        as [line ->]; [by rewrite Hfind|]. split; unfold spawn_count; simpl; lia.
    + destruct (trace_session_found_tail self w instruction session env logging_dir
                  container_id Hfind Hfalsy) as (tail & -> & Htail).
      apply spawn_count_snapshot_events in Htail as [Ha Hd].
      rewrite !spawn_count_app, Ha, Hd. split; unfold spawn_count; simpl; lia.
  - destruct (trace_run_direct_execution self w instruction env logging_dir)
      as (tail & -> & Htail).
    apply spawn_count_snapshot_events in Htail as [Ha Hd].
    rewrite !spawn_count_app, Ha, Hd.
    destruct (result (_run_direct_execution _ _ _ _ _)); split; unfold spawn_count; simpl; lia.
Qed.

(** X16: on the direct path with a logging directory, an agent that exits
    within the timeout has its standard output and its error output written
    to the two log files right after it was spawned, before anything else is
    persisted, and the call returns the result for its exit code. *)
Theorem direct_path_persists_agent_output self w instruction session dir env elapsed cp :
  has_send_keys session = false ->
  _setup_environment (os_environ w) = Return env ->
  agent w = Exits elapsed cp ->
  (elapsed <= 3600)%Q ->
  log_mkdir w = None ->
  (forall name, log_write w name = None) ->
  result (perform_task self w instruction session (Some dir)) = Return (classify cp)
  /\ exists pre post,
       trace (perform_task self w instruction session (Some dir))
       = pre
         ++ [EvSpawn Agent [node_executable self; agent_script self; "run"; instruction]
               (Some (agent_dir self)) (Some env);
             EvMkdir dir;
             EvWrite (path_join dir "typescript_agent_stdout.log") (stdout cp);
             EvWrite (path_join dir "typescript_agent_stderr.log") (stderr cp)]
         ++ post
       /\ Forall (fun ev => persists ev = false) pre.
Proof.
  intros Hplain Hsetup Hagent Hle Hmkdir Hwrite.
  assert (Qle_bool elapsed (inject_Z 3600) = true) as Hfast by (by apply Qle_bool_iff).
  assert (result (persist_logs w (Some dir) cp) = Return tt) as Hlogs.
  { unfold persist_logs, write_log. run_snapshot. rewrite Hmkdir. run_snapshot.
    by rewrite !Hwrite. }
  split.
  - by rewrite result_perform_task, Hsetup, Hplain, result_run_direct_execution,
      Hagent, Hfast, Hlogs.
  - rewrite trace_perform_task, Hsetup, Hplain.
    unfold _run_direct_execution at 1.
    rewrite trace_try_except. rewrite !trace_bind, !trace_print, !result_print.
    cbv beta iota. rewrite trace_subprocess_run, result_agent_run, Hagent, Hfast.
    cbv beta iota. rewrite trace_bind.
    unfold persist_logs at 1. unfold write_log. run_snapshot.
    rewrite Hmkdir. run_snapshot. rewrite !Hwrite. cbv beta iota.
    eexists [_; _; _; _; _], _. split; [cbn [app]; reflexivity|].
    by repeat constructor.
Qed.

Lemma direct_path_persists_agent_output_witness :
  result (perform_task Sample.wrapper Sample.world_ok "fix the build" Sample.plain_session
            (Some "/runs"))
  = Return (classify {| returncode := 0; stdout := "done"; stderr := "" |})
  /\ exists pre post,
       trace (perform_task Sample.wrapper Sample.world_ok "fix the build"
                Sample.plain_session (Some "/runs"))
       = pre
         ++ [EvSpawn Agent
               [node_executable Sample.wrapper; agent_script Sample.wrapper; "run";
                "fix the build"]
               (Some (agent_dir Sample.wrapper))
               (Some (<["LITELLM_TEMPERATURE" := "0.1"]>
                        (<["LITELLM_MODEL" := "gpt-4"]> Sample.credentials)));
             EvMkdir "/runs";
             EvWrite (path_join "/runs" "typescript_agent_stdout.log") "done";
             EvWrite (path_join "/runs" "typescript_agent_stderr.log") ""]
         ++ post
       /\ Forall (fun ev => persists ev = false) pre.
Proof.
  apply (direct_path_persists_agent_output Sample.wrapper Sample.world_ok "fix the build"
           Sample.plain_session "/runs"
           (<["LITELLM_TEMPERATURE" := "0.1"]>
              (<["LITELLM_MODEL" := "gpt-4"]> Sample.credentials))
           1 {| returncode := 0; stdout := "done"; stderr := "" |}).
  - reflexivity.
  - vm_compute. reflexivity.
  - reflexivity.
  - vm_compute. discriminate.
  - reflexivity.
  - reflexivity.
Defined.

Lemma agent_run_raises w cmd cwd env :
  (forall elapsed cp, agent w = Exits elapsed cp -> (3600 < elapsed)%Q) ->
  exists e, result (subprocess_run Agent (agent w) cmd cwd env (Some 3600) false) = Raise e.
Proof.
  intros Hnever. rewrite result_agent_run.
  destruct (agent w) as [elapsed cp|f]; [|by eexists].
  destruct (Qle_bool elapsed (inject_Z 3600)) eqn:Hle; [|by eexists].
  apply Qle_bool_iff in Hle. specialize (Hnever _ _ eq_refl).
  by apply Qle_not_lt in Hle.
Qed.

(** X17: logs and snapshot are only written for an agent process that ran to
    its end: when the agent cannot be started or outlives the timeout, the
    call makes no directory, writes no file and runs no git, on either
    path. *)
Theorem unfinished_agent_nothing_persisted self w instruction session logging_dir :
  (forall elapsed cp, agent w = Exits elapsed cp -> (3600 < elapsed)%Q) ->
  Forall (fun ev => persists ev = false)
    (trace (perform_task self w instruction session logging_dir)).
Proof.
  intros Hnever. rewrite trace_perform_task.
  destruct (_setup_environment (os_environ w)) as [env|e]; [|by repeat constructor].
  apply Forall_app. split; [by repeat constructor|].
  destruct (has_send_keys session).
  - unfold _run_with_terminal_bench_session.
    rewrite trace_try_except, trace_bind, trace_print, result_print. cbv beta iota.
    rewrite !result_bind, result_print. cbv beta iota.
    rewrite trace_bind, trace_find_tb_container_id.
    destruct (result (_find_tb_container_id w)) as [container_id|e];
      [|by repeat constructor].
    destruct (falsy container_id); run_trace; [by repeat constructor|].
    destruct (agent_run_raises w
                [node_executable self; agent_script self; "run"; "--container";
                 default "" container_id; instruction]
                (Some (agent_dir self))
                (Some (<["TERMINAL_BENCH_SESSION" := "true"]> env)) Hnever) as [e He].
    rewrite result_agent_run in He. rewrite He. run_trace. by repeat constructor.
  - unfold _run_direct_execution. run_trace.
    destruct (agent_run_raises w
                [node_executable self; agent_script self; "run"; instruction]
                (Some (agent_dir self)) (Some env) Hnever) as [e He].
    rewrite result_agent_run in He. rewrite He. cbv beta iota.
    destruct (is_TimeoutExpired e); by repeat constructor.
Qed.

Lemma unfinished_agent_nothing_persisted_witness :
  Forall (fun ev => persists ev = false)
    (trace (perform_task Sample.wrapper Sample.world_slow_agent "fix the build"
              Sample.plain_session (Some "/runs"))).
Proof.
  apply (unfinished_agent_nothing_persisted Sample.wrapper Sample.world_slow_agent).
  intros elapsed cp [= <- _]. vm_compute. reflexivity.
Defined.

(** X18: an agent executable that cannot be started gives the UnknownError
    result on either path. *)
Theorem agent_start_failure_is_unknown_error self w instruction session logging_dir f :
  agent w = Fails f ->
  result (perform_task self w instruction session logging_dir)
  = Return unknown_agent_error.
Proof.
  intros Hagent. rewrite result_perform_task.
  destruct (_setup_environment (os_environ w)) as [env|e] eqn:Hsetup.
  - destruct (has_send_keys session).
    + rewrite result_run_with_terminal_bench_session, Hagent.
      destruct (result (_find_tb_container_id w)) as [container_id|e]; [|done].
      by destruct (falsy container_id).
    + by rewrite result_run_direct_execution, Hagent.
  - by rewrite (setup_environment_raises_runtime_error _ _ Hsetup).
Qed.

Lemma agent_start_failure_is_unknown_error_witness :
  result (perform_task Sample.wrapper Fixture.world_no_node "fix the build"
            Sample.plain_session (Some "/runs"))
  = Return unknown_agent_error.
Proof.
  by apply (agent_start_failure_is_unknown_error Sample.wrapper Fixture.world_no_node
              "fix the build" Sample.plain_session (Some "/runs")
              (mkFailure "FileNotFoundError"
                 "[Errno 2] No such file or directory: '/usr/bin/node'")).
Defined.

Lemma session_path_writes_only_snapshot_witness :
  exists dir name,
    Some "/runs" = Some dir
    /\ path_join "/runs" "git-status.txt" = path_join dir name
    /\ name ∈ snapshot_files.
Proof.
  apply (session_path_writes_only_snapshot Sample.wrapper Sample.world_ok "fix the build"
           Sample.tmux_session (Some "/runs") (path_join "/runs" "git-status.txt") "");
    [reflexivity|].
  apply list_elem_of_lookup. exists 13%nat. vm_compute. reflexivity.
Defined.

(** ** Construction of the wrapper *)

Lemma first_existing_some present paths path :
  Init.first_existing present paths = Some path ->
  exists before after,
    paths = before ++ path :: after
    /\ present path = true
    /\ Forall (fun q => present q = false) before.
Proof.
  induction paths as [|p paths IH]; simpl; [done|].
  destruct (present p) eqn:Hp.
  - intros [= <-]. by exists [], paths.
  - intros (before & after & -> & Hpath & Hbefore)%IH.
    exists (p :: before), after. by repeat split; [|constructor].
Qed.

Lemma first_existing_none present paths :
  Init.first_existing present paths = None <-> Forall (fun q => present q = false) paths.
Proof.
  induction paths as [|p paths IH]; simpl; [by split; [constructor|]|].
  destruct (present p) eqn:Hp.
  - split; [done|]. intros [Hp' _]%Forall_cons. congruence.
  - rewrite IH. split; [by constructor | by intros [_ ?]%Forall_cons].
Qed.

Lemma result_find_node iw :
  fst (Init._find_node iw)
  = match Init.which_node iw with
    | Fails f => Raise (exn_of f)
    | Exits _ cp =>
        if returncode cp =? 0 then Return (Text.strip (stdout cp))
        else match Init.first_existing (Init.path_exists iw) Init.common_paths with
             | Some path => Return path
             | None =>
                 Raise (RuntimeError
                   "Node.js not found. Please install Node.js or ensure it's in your PATH.")
             end
    end.
Proof.
  unfold Init._find_node, Init.try_except_called_process_error, Init.run.
  destruct (Init.which_node iw) as [elapsed cp|f]; [|done].
  cbn -[Init.first_existing].
  destruct (returncode cp =? 0); cbn -[Init.first_existing]; [done|].
  by destruct (Init.first_existing _ _).
Qed.

(** X19: when [which node] exits with a nonzero status, [_find_node] returns
    the first of /usr/bin/node, /usr/local/bin/node, /opt/homebrew/bin/node
    that exists, and raises the RuntimeError exactly when none does. *)
Theorem find_node_falls_back_in_order iw elapsed cp :
  Init.which_node iw = Exits elapsed cp ->
  returncode cp <> 0 ->
  (forall path,
     fst (Init._find_node iw) = Return path ->
     exists before after,
       ["/usr/bin/node"; "/usr/local/bin/node"; "/opt/homebrew/bin/node"]
       = before ++ path :: after
       /\ Init.path_exists iw path = true
       /\ Forall (fun q => Init.path_exists iw q = false) before)
  /\ ((exists msg, fst (Init._find_node iw) = Raise (RuntimeError msg))
      <-> Forall (fun q => Init.path_exists iw q = false)
            ["/usr/bin/node"; "/usr/local/bin/node"; "/opt/homebrew/bin/node"])
  /\ ((exists path, fst (Init._find_node iw) = Return path)
      \/ (exists msg, fst (Init._find_node iw) = Raise (RuntimeError msg))).
Proof.
  intros Hwhich Hrc. rewrite result_find_node, Hwhich.
  destruct (Z.eqb_spec (returncode cp) 0) as [|_]; [done|].
  change ["/usr/bin/node"; "/usr/local/bin/node"; "/opt/homebrew/bin/node"]
    with Init.common_paths.
  destruct (Init.first_existing _ _) as [found|] eqn:Hfirst.
  - split; [|split].
    + intros path [= <-]. by apply first_existing_some.
    + split; [by intros [msg [=]]|].
      intros Hnone%first_existing_none. congruence.
    + left. by eexists.
  - split; [done|]. split; [|right; by eexists].
    split; [intros _; by apply first_existing_none | by eexists].
Qed.

Lemma find_node_falls_back_in_order_witness :
  (forall path,
     fst (Init._find_node Fixture.init_homebrew) = Return path ->
     exists before after,
       ["/usr/bin/node"; "/usr/local/bin/node"; "/opt/homebrew/bin/node"]
       = before ++ path :: after
       /\ Init.path_exists Fixture.init_homebrew path = true
       /\ Forall (fun q => Init.path_exists Fixture.init_homebrew q = false) before)
  /\ ((exists msg, fst (Init._find_node Fixture.init_homebrew) = Raise (RuntimeError msg))
      <-> Forall (fun q => Init.path_exists Fixture.init_homebrew q = false)
            ["/usr/bin/node"; "/usr/local/bin/node"; "/opt/homebrew/bin/node"])
  /\ ((exists path, fst (Init._find_node Fixture.init_homebrew) = Return path)
      \/ (exists msg, fst (Init._find_node Fixture.init_homebrew) = Raise (RuntimeError msg))).
Proof.
  apply (find_node_falls_back_in_order Fixture.init_homebrew 1
           {| returncode := 1; stdout := ""; stderr := "" |}).
  - reflexivity.
  - discriminate.
Defined.

Lemma init_fst_bind {A B} (m : Init.I A) (k : A -> Init.I B) :
  fst (@mbind Init.I Init.I_bind A B k m)
  = match fst m with Return a => fst (k a) | Raise e => Raise e end.
Proof. unfold mbind, Init.I_bind, Init.bind. by destruct (fst m). Qed.

Lemma init_snd_bind {A B} (m : Init.I A) (k : A -> Init.I B) :
  snd (@mbind Init.I Init.I_bind A B k m)
  = snd m ++ match fst m with Return a => snd (k a) | Raise _ => [] end.
Proof.
  unfold mbind, Init.I_bind, Init.bind. destruct (fst m); simpl; [done|].
  by rewrite app_nil_r.
Qed.

Lemma trace_find_node iw :
  snd (Init._find_node iw) = [Init.IvSpawn ["which"; "node"] None].
Proof.
  unfold Init._find_node, Init.try_except_called_process_error, Init.run.
  destruct (Init.which_node iw) as [elapsed cp|f]; [|done].
  cbn -[Init.first_existing].
  destruct (returncode cp =? 0); cbn -[Init.first_existing]; [done|].
  by destruct (Init.first_existing _ _).
Qed.

Lemma result_build_agent iw dir :
  fst (Init._build_agent iw dir)
  = match Init.npm_build iw with
    | Fails f => Raise (exn_of f)
    | Exits _ cp =>
        if returncode cp =? 0 then Return tt
        else match Init.decode iw (stderr cp) with
             | inl text => Raise (RuntimeError ("Failed to build TypeScript agent: " +:+ text))
             | inr f => Raise (exn_of f)
             end
    end.
Proof.
  unfold Init._build_agent, Init.try_except_called_process_error, Init.run.
  rewrite init_fst_bind. cbn.
  destruct (Init.npm_build iw) as [elapsed cp|f]; [|done].
  cbn. destruct (returncode cp =? 0); cbn; [done|].
  by destruct (Init.decode iw (stderr cp)).
Qed.

Lemma trace_build_agent iw dir :
  exists rest,
    snd (Init._build_agent iw dir)
    = Init.IvPrint "Building TypeScript agent..."
      :: Init.IvSpawn ["npm"; "run"; "build"] (Some dir) :: rest.
Proof.
  unfold Init._build_agent, Init.try_except_called_process_error, Init.run.
  rewrite init_snd_bind. cbn.
  destruct (Init.npm_build iw) as [elapsed cp|f]; [|by eexists].
  cbn. destruct (returncode cp =? 0); cbn; [by eexists|].
  destruct (Init.decode iw (stderr cp)); by eexists.
Qed.

(** The wrapper object the constructor sets up. *)
Lemma result_init iw kwargs :
  fst (Init.__init__ iw kwargs)
  = match fst (Init._find_node iw) with
    | Raise e => Raise e
    | Return node =>
        let dir := Init.module_dir iw in
        let script := path_join (path_join dir "dist") "index.js" in
        let built :=
          if negb (default false (kwargs !! "no_rebuild"))
             && negb (Init.path_exists iw script)
          then fst (Init._build_agent iw dir) else Return tt in
        match (if Init.path_exists iw (path_join dir ".env")
               then Init.dotenv iw else None),
              built with
        | Some f, _ => Raise (exn_of f)
        | None, Raise e => Raise e
        | None, Return _ =>
            Return {| agent_dir := dir; node_executable := node; agent_script := script |}
        end
    end.
Proof.
  unfold Init.__init__, Init.load_dotenv. rewrite init_fst_bind.
  destruct (fst (Init._find_node iw)) as [node|e]; [|done].
  rewrite !init_fst_bind. cbv zeta.
  destruct (Init.path_exists iw (path_join (Init.module_dir iw) ".env")).
  - rewrite init_fst_bind. cbn -[Init._build_agent].
    destruct (Init.dotenv iw); cbn -[Init._build_agent]; [done|].
    destruct (negb _ && negb _); cbn -[Init._build_agent]; [|done].
    by destruct (fst (Init._build_agent _ _)).
  - cbn -[Init._build_agent].
    destruct (negb _ && negb _); cbn -[Init._build_agent]; [|done].
    by destruct (fst (Init._build_agent _ _)).
Qed.

(** X20: the fallback of [_find_node] is for a [which] that ran and found
    nothing; when [which] itself cannot be started, the exception goes
    through [_find_node] and the constructor unchanged, whether or not node
    is at one of the well-known paths, and the constructor has done nothing
    but try to run [which]. *)
Theorem which_start_failure_aborts_construction iw kwargs f :
  Init.which_node iw = Fails f ->
  fst (Init._find_node iw) = Raise (exn_of f)
  /\ fst (Init.__init__ iw kwargs) = Raise (exn_of f)
  /\ snd (Init.__init__ iw kwargs) = [Init.IvSpawn ["which"; "node"] None].
Proof.
  intros Hwhich.
  assert (fst (Init._find_node iw) = Raise (exn_of f)) as Hfind
    by (by rewrite result_find_node, Hwhich).
  split; [done|]. split; [by rewrite result_init, Hfind|].
  unfold Init.__init__. rewrite init_snd_bind, Hfind, trace_find_node. done.
Qed.

Lemma which_start_failure_aborts_construction_witness :
  fst (Init._find_node Fixture.init_no_which)
  = Raise (exn_of (mkFailure "FileNotFoundError"
                     "[Errno 2] No such file or directory: 'which'"))
  /\ fst (Init.__init__ Fixture.init_no_which ∅)
     = Raise (exn_of (mkFailure "FileNotFoundError"
                        "[Errno 2] No such file or directory: 'which'"))
  /\ snd (Init.__init__ Fixture.init_no_which ∅) = [Init.IvSpawn ["which"; "node"] None].
Proof.
  by apply (which_start_failure_aborts_construction Fixture.init_no_which ∅).
Defined.

(** X21: a wrapper is only ever constructed around the module's own
    directory, its dist/index.js and the node that [_find_node] returned,
    and only when the build was waived by [no_rebuild], was already there,
    or has just succeeded. *)
Theorem init_result_invariant iw kwargs wrapper :
  fst (Init.__init__ iw kwargs) = Return wrapper ->
  agent_dir wrapper = Init.module_dir iw
  /\ agent_script wrapper = path_join (path_join (Init.module_dir iw) "dist") "index.js"
  /\ fst (Init._find_node iw) = Return (node_executable wrapper)
  /\ (kwargs !! "no_rebuild" = Some true
      \/ Init.path_exists iw (agent_script wrapper) = true
      \/ exists elapsed cp, Init.npm_build iw = Exits elapsed cp /\ returncode cp = 0).
Proof.
  rewrite result_init.
  destruct (fst (Init._find_node iw)) as [node|e]; [|done]. cbv zeta.
  rewrite result_build_agent.
  destruct (if Init.path_exists iw _ then _ else _); [done|].
  assert (forall built : outcome unit,
    (built = Return tt ->
     exists elapsed cp, Init.npm_build iw = Exits elapsed cp /\ returncode cp = 0) ->
    match (if negb (default false (kwargs !! "no_rebuild"))
              && negb (Init.path_exists iw
                         (path_join (path_join (Init.module_dir iw) "dist") "index.js"))
           then built else Return tt) with
    | Return _ =>
        Return {| agent_dir := Init.module_dir iw; node_executable := node;
                  agent_script :=
                    path_join (path_join (Init.module_dir iw) "dist") "index.js" |}
    | Raise e => Raise e
    end = Return wrapper ->
    agent_dir wrapper = Init.module_dir iw
    /\ agent_script wrapper
       = path_join (path_join (Init.module_dir iw) "dist") "index.js"
    /\ Return node = Return (node_executable wrapper)
    /\ (kwargs !! "no_rebuild" = Some true
        \/ Init.path_exists iw (agent_script wrapper) = true
        \/ exists elapsed cp, Init.npm_build iw = Exits elapsed cp /\ returncode cp = 0))
    as Hcases.
  { intros built Hbuilt.
    destruct (kwargs !! "no_rebuild") as [[]|]; simpl;
      try (intros [= <-]; simpl; by repeat split; try left);
      (destruct (Init.path_exists iw _) eqn:Hscript; simpl;
       [intros [= <-]; simpl; by repeat split; try (right; left)|]);
      (destruct built as [[]|e]; [|done]);
      intros [= <-]; simpl; repeat split; try done; right; right; by apply Hbuilt. }
  apply Hcases.
  destruct (Init.npm_build iw) as [elapsed cp|f]; [|done].
  destruct (Z.eqb_spec (returncode cp) 0) as [Hrc|_]; [by do 2 eexists|].
  by destruct (Init.decode iw (stderr cp)).
Qed.

Lemma init_result_invariant_witness :
  agent_dir (mkWrapper "/opt/agent" "/opt/homebrew/bin/node" "/opt/agent/dist/index.js")
  = Init.module_dir Fixture.init_homebrew
  /\ agent_script (mkWrapper "/opt/agent" "/opt/homebrew/bin/node"
                     "/opt/agent/dist/index.js")
     = path_join (path_join (Init.module_dir Fixture.init_homebrew) "dist") "index.js"
  /\ fst (Init._find_node Fixture.init_homebrew)
     = Return (node_executable (mkWrapper "/opt/agent" "/opt/homebrew/bin/node"
                                  "/opt/agent/dist/index.js"))
  /\ ((∅ : gmap string bool) !! "no_rebuild" = Some true
      \/ Init.path_exists Fixture.init_homebrew
           (agent_script (mkWrapper "/opt/agent" "/opt/homebrew/bin/node"
                            "/opt/agent/dist/index.js")) = true
      \/ exists elapsed cp,
           Init.npm_build Fixture.init_homebrew = Exits elapsed cp /\ returncode cp = 0).
Proof.
  apply (init_result_invariant Fixture.init_homebrew ∅). vm_compute. reflexivity.
Defined.

Ltac absent :=
  let Hin := fresh "Hin" in
  intros Hin; cbn in Hin;
  repeat (apply elem_of_cons in Hin as [Hin|Hin]; [discriminate|]);
  by apply elem_of_nil in Hin.

(** X22: the constructor runs [npm run build] exactly when node was found,
    the .env file (if there is one) was loaded, [no_rebuild] is not set to a
    true value and dist/index.js is missing. *)
Theorem init_builds_exactly_when_needed iw kwargs :
  Init.IvSpawn ["npm"; "run"; "build"] (Some (Init.module_dir iw))
    ∈ snd (Init.__init__ iw kwargs)
  <-> (exists node, fst (Init._find_node iw) = Return node)
      /\ (Init.path_exists iw (path_join (Init.module_dir iw) ".env") = true ->
          Init.dotenv iw = None)
      /\ default false (kwargs !! "no_rebuild") = false
      /\ Init.path_exists iw (path_join (path_join (Init.module_dir iw) "dist") "index.js")
         = false.
Proof.
  unfold Init.__init__, Init.load_dotenv.
  rewrite init_snd_bind, trace_find_node.
  destruct (fst (Init._find_node iw)) as [node|e].
  2: { split; [absent | by intros [[node [=]] _]]. }
  rewrite !init_snd_bind. cbv zeta.
  destruct (Init.path_exists iw (path_join (Init.module_dir iw) ".env")).
  - rewrite init_snd_bind, init_fst_bind. cbn -[Init._build_agent].
    destruct (Init.dotenv iw) as [f|]; cbn -[Init._build_agent].
    { split; [absent|]. intros (_ & Hdotenv & _). by specialize (Hdotenv eq_refl). }
    destruct (default false (kwargs !! "no_rebuild")); cbn -[Init._build_agent].
    { split; [absent | by intros (_ & _ & [=] & _)]. }
    destruct (Init.path_exists iw _); cbn -[Init._build_agent].
    { split; [absent | by intros (_ & _ & _ & [=])]. }
    destruct (trace_build_agent iw (Init.module_dir iw)) as [rest ->].
    split; [intros _; by repeat split; [eexists|..] |].
    intros _. do 3 apply list_elem_of_further. apply list_elem_of_here.
  - cbn -[Init._build_agent].
    destruct (default false (kwargs !! "no_rebuild")); cbn -[Init._build_agent].
    { split; [absent | by intros (_ & _ & [=] & _)]. }
    destruct (Init.path_exists iw _); cbn -[Init._build_agent].
    { split; [absent | by intros (_ & _ & _ & [=])]. }
    destruct (trace_build_agent iw (Init.module_dir iw)) as [rest ->].
    split; [intros _; by repeat split; [eexists|..] |].
    intros _. do 2 apply list_elem_of_further. apply list_elem_of_here.
Qed.

(** X23: a build that exits with a nonzero status never yields a wrapper:
    [_build_agent] raises, a RuntimeError carrying the decoded error output
    of the build when that output can be decoded, and the constructor
    raises the same exception. *)
Theorem failed_build_aborts_construction iw kwargs node elapsed cp :
  fst (Init._find_node iw) = Return node ->
  (Init.path_exists iw (path_join (Init.module_dir iw) ".env") = true ->
   Init.dotenv iw = None) ->
  default false (kwargs !! "no_rebuild") = false ->
  Init.path_exists iw (path_join (path_join (Init.module_dir iw) "dist") "index.js")
  = false ->
  Init.npm_build iw = Exits elapsed cp ->
  returncode cp <> 0 ->
  (exists e, fst (Init._build_agent iw (Init.module_dir iw)) = Raise e
             /\ fst (Init.__init__ iw kwargs) = Raise e)
  /\ (forall text,
        Init.decode iw (stderr cp) = inl text ->
        fst (Init.__init__ iw kwargs)
        = Raise (RuntimeError ("Failed to build TypeScript agent: " +:+ text))).
Proof.
  intros Hnode Hdotenv Hkw Hscript Hnpm Hrc.
  rewrite result_init, Hnode. cbv zeta. rewrite Hkw, Hscript. simpl negb. simpl andb.
  cbv iota. rewrite result_build_agent, Hnpm.
  destruct (Z.eqb_spec (returncode cp) 0) as [|_]; [done|].
  assert ((if Init.path_exists iw (path_join (Init.module_dir iw) ".env")
           then Init.dotenv iw else None) = None) as ->.
  { destruct (Init.path_exists iw _); [by apply Hdotenv | done]. }
  destruct (Init.decode iw (stderr cp)) as [text|f].
  - split; [by eexists | by intros ? [= <-]].
  - split; [by eexists | done].
Qed.

Lemma failed_build_aborts_construction_witness :
  (exists e,
     fst (Init._build_agent Fixture.init_broken_build
            (Init.module_dir Fixture.init_broken_build)) = Raise e
     /\ fst (Init.__init__ Fixture.init_broken_build ∅) = Raise e)
  /\ (forall text,
        Init.decode Fixture.init_broken_build "error TS2304" = inl text ->
        fst (Init.__init__ Fixture.init_broken_build ∅)
        = Raise (RuntimeError ("Failed to build TypeScript agent: " +:+ text))).
Proof.
  apply (failed_build_aborts_construction Fixture.init_broken_build ∅
           "/opt/homebrew/bin/node" 9
           {| returncode := 2; stdout := ""; stderr := "error TS2304" |});
    try (vm_compute; reflexivity); discriminate.
Defined.

(** ** The standalone entry point *)

Lemma main_fst_bind {A B} (m : Main.P A) (k : A -> Main.P B) :
  fst (@mbind Main.P Main.P_bind A B k m)
  = match fst m with Return a => fst (k a) | Raise e => Raise e end.
Proof. unfold mbind, Main.P_bind, Main.bind. by destruct (fst m). Qed.

Lemma main_fst_of_init {A} (m : Init.I A) : fst (Main.of_init m) = fst m.
Proof. done. Qed.

Lemma main_fst_of_run {A} (m : M A) : fst (Main.of_run m) = result m.
Proof. done. Qed.

Lemma result_main show argv iw w :
  length argv = 2%nat ->
  fst (Main.main show argv iw w)
  = match fst (Init.__init__ iw ∅) with
    | Raise e => Raise e
    | Return wrapper =>
        match result (perform_task wrapper w (default "" (argv !! 1%nat))
                        Main.MockSession None) with
        | Return r => Return (match failure_mode r with NONE => 0 | _ => 1 end)
        | Raise e => Raise e
        end
    end.
Proof.
  intros Hlen. unfold Main.main. rewrite Hlen. simpl negb. cbv iota zeta.
  rewrite main_fst_bind, main_fst_of_init.
  destruct (fst (Init.__init__ iw ∅)) as [wrapper|e]; [|done].
  rewrite main_fst_bind, main_fst_of_run.
  destruct (result (perform_task _ _ _ _ _)) as [r|e]; [|done].
  by rewrite !main_fst_bind.
Qed.

(** The direct path without a logging directory reports None exactly for an
    agent that exits with status 0 within the timeout. *)
Lemma plain_call_succeeds_iff self w instruction session r :
  has_send_keys session = false ->
  result (perform_task self w instruction session None) = Return r ->
  failure_mode r = NONE
  <-> exists env elapsed cp,
        _setup_environment (os_environ w) = Return env
        /\ agent w = Exits elapsed cp
        /\ (elapsed <= 3600)%Q
        /\ returncode cp = 0.
Proof.
  intros Hplain. rewrite result_perform_task, Hplain.
  destruct (_setup_environment (os_environ w)) as [env|e].
  2: { intros [= <-]. split; [by destruct (is_TimeoutExpired e)|].
       by intros (? & ? & ? & [=] & _). }
  rewrite result_run_direct_execution.
  destruct (agent w) as [elapsed cp|f].
  2: { intros [= <-]. split; [done | by intros (? & ? & ? & _ & [=] & _)]. }
  destruct (Qle_bool elapsed (inject_Z 3600)) eqn:Hle.
  - simpl. intros [= <-]. simpl. split.
    + destruct (Z.eqb_spec (returncode cp) 0) as [Hrc|]; [|done].
      intros _. exists env, elapsed, cp. repeat split; try done.
      by apply Qle_bool_iff in Hle.
    + intros (? & ? & ? & _ & [= <- <-] & _ & ->). done.
  - intros [= <-]. split; [done|].
    intros (? & ? & ? & _ & [= <- <-] & Hfast & _).
    assert (Qle_bool elapsed (inject_Z 3600) = true) by (by apply Qle_bool_iff).
    congruence.
Qed.

Lemma perform_task_always_returns_plain self w instruction :
  exists r, result (perform_task self w instruction Main.MockSession None) = Return r.
Proof.
  rewrite result_perform_task.
  destruct (_setup_environment (os_environ w)) as [env|e]; [|by eexists].
  simpl. rewrite result_run_direct_execution.
  destruct (agent w) as [elapsed cp|f]; [|by eexists].
  destruct (Qle_bool elapsed (inject_Z 3600)); by eexists.
Qed.


(** X24: called with anything but exactly one argument, the entry point
    prints the usage line and exits with status 1; it constructs no wrapper
    and runs nothing. *)
Theorem main_usage show argv iw w :
  length argv <> 2%nat ->
  Main.main show argv iw w
  = (Return 1, [Main.MvPrint "Usage: python terminal_bench_wrapper.py '<task_description>'"])
  /\ Main.exit_status (Main.main show argv iw w) = 1.
Proof.
  intros Hargs. unfold Main.exit_status, Main.main.
  destruct (Nat.eqb_spec (length argv) 2); [done|]. by split.
Qed.

Lemma main_usage_witness :
  Main.main (fun _ => "") ["terminal_bench_wrapper.py"] Fixture.init_homebrew
    Sample.world_ok
  = (Return 1, [Main.MvPrint "Usage: python terminal_bench_wrapper.py '<task_description>'"])
  /\ Main.exit_status
       (Main.main (fun _ => "") ["terminal_bench_wrapper.py"] Fixture.init_homebrew
          Sample.world_ok) = 1.
Proof. apply main_usage. simpl. lia. Defined.



(** A standalone run on a machine where everything works exits with 0. *)
Example main_exit_status_ok :
  Main.exit_status
    (Main.main (fun _ => "") ["terminal_bench_wrapper.py"; "fix the build"]
       Fixture.init_homebrew Sample.world_ok) = 0.
Proof. vm_compute. reflexivity. Qed.

(** ** Timeouts, continued *)

(** X27: on the direct path, with a credential set, an agent that is still
    running after 3600 seconds gives the Timeout result with both token
    counts zero, whatever the logging directory. *)
Theorem direct_path_timeout_result self w instruction session logging_dir elapsed cp :
  has_send_keys session = false ->
  has_key "OPENROUTER_API_KEY" (os_environ w) = true
  \/ has_key "OPENAI_API_KEY" (os_environ w) = true ->
  agent w = Exits elapsed cp ->
  (3600 < elapsed)%Q ->
  result (perform_task self w instruction session logging_dir)
  = Return {| failure_mode := AGENT_TIMEOUT;
              total_input_tokens := 0; total_output_tokens := 0 |}.
Proof.
  intros Hplain Hcred Hagent Hslow.
  apply credential_resolves in Hcred as [env Hsetup].
  by apply (timeout_on_direct_path self w instruction session logging_dir env elapsed cp).
Qed.

Lemma direct_path_timeout_result_witness :
  result (perform_task Sample.wrapper Sample.world_slow_agent "fix the build"
            Sample.plain_session (Some "/runs"))
  = Return {| failure_mode := AGENT_TIMEOUT;
              total_input_tokens := 0; total_output_tokens := 0 |}.
Proof.
  apply (direct_path_timeout_result Sample.wrapper Sample.world_slow_agent
           "fix the build" Sample.plain_session (Some "/runs") 4000
           {| returncode := 0; stdout := ""; stderr := "" |}).
  - reflexivity.
  - right. vm_compute. reflexivity.
  - reflexivity.
  - vm_compute. reflexivity.
Defined.

(** ** The heuristic, spelled out *)

Lemma prefix_iff (a b : string) :
  String.prefix a b = true <-> exists c, b = a +:+ c.
Proof.
  revert b. induction a as [|x a IH]; intros b.
  - destruct b; simpl; (split; [intros _; by eexists | done]).
  - destruct b as [|y b]; simpl; [split; [done | by intros [c [=]]]|].
    destruct (Ascii.ascii_dec x y) as [->|Hne].
    + rewrite IH. split; intros [c Hc]; exists c.
      * by rewrite append_cons, Hc.
      * rewrite append_cons in Hc. by injection Hc.
    + split; [done|]. intros [c Hc]. rewrite append_cons in Hc. congruence.
Qed.

Lemma endswith_iff (s suffix : string) :
  Text.endswith s suffix = true <-> exists pre, s = pre +:+ suffix.
Proof.
  split.
  - induction s as [|c s IH]; cbn [Text.endswith].
    + rewrite orb_false_r. intros ->%String.eqb_eq. by exists "".
    + intros [->%String.eqb_eq | [pre ->]%IH]%orb_true_iff; [by exists ""|].
      by exists (String c pre).
  - intros [pre ->]. induction pre as [|c pre IH].
    + change ("" +:+ suffix) with suffix.
      destruct suffix; cbn [Text.endswith]; by rewrite String.eqb_refl.
    + rewrite append_cons. cbn [Text.endswith]. by rewrite IH, orb_true_r.
Qed.

Lemma contains_iff (needle hay : string) :
  Text.contains needle hay = true <-> exists pre post, hay = pre +:+ needle +:+ post.
Proof.
  split.
  - induction hay as [|c hay IH].
    + cbn [Text.contains]. rewrite orb_false_r.
      intros [post Hpost]%prefix_iff. exists "", post. exact Hpost.
    + cbn [Text.contains].
      intros [[post ->]%prefix_iff | (pre & post & ->)%IH]%orb_true_iff.
      * by exists "", post.
      * by exists (String c pre), post.
  - intros (pre & post & ->). induction pre as [|c pre IH].
    + assert (String.prefix needle (needle +:+ post) = true) as Hp
        by (apply prefix_iff; by eexists).
      change ("" +:+ needle +:+ post) with (needle +:+ post).
      destruct (needle +:+ post); cbn [Text.contains]; by rewrite Hp.
    + rewrite append_cons. cbn [Text.contains]. by rewrite IH, orb_true_r.
Qed.

(** X26: the heuristic accepts an entry exactly when its image has
    terminal-bench somewhere in it, or its name ends with _agent_1 or with
    _app_1. *)
Theorem tb_match_iff image name :
  tb_match image name = true
  <-> (exists pre post, image = pre +:+ "terminal-bench" +:+ post)
      \/ (exists pre, name = pre +:+ "_agent_1")
      \/ (exists pre, name = pre +:+ "_app_1").
Proof.
  unfold tb_match. rewrite !orb_true_iff, contains_iff, !endswith_iff. tauto.
Qed.
